(** * backend/server.py: the [/query] handler, embedded in Rocq

    The development follows the layout of [backend/server.py]:

    - [Py]: the fragment of the Python runtime the handler relies on
      (JSON-like values, truthiness, [str], [repr], [json.dumps],
      [str.strip], slicing, [dict.get]);
    - the exception / early-return monad in which the body of
      [handle_query] is written, with [try ... finally] and
      [try ... except Exception] combinators;
    - [World]: the module-level globals ([llm], [embeddings],
      [structured_parser], [format_instructions]) and the third-party
      calls the handler makes (page loader, text splitter, FAISS index,
      RetrievalQA chain, chat model, structured parser);
    - [_concise_from_structured] and [handle_query] themselves;
    - [ping], [health] and the module-level code that computes the
      globals when the module is imported ([boot]);
    - the properties of the handler, of the summary and of the import.

    A Python [str] is modelled by a [string] whose characters are the code
    points of the text, restricted to code points below 256.  [print]
    calls are left out: they do not influence the result. *)

From Stdlib Require Import String Ascii List ZArith Bool Lia DecimalString.
Import ListNotations.

#[local] Set Warnings "-register-all".
Local Open Scope list_scope.
Local Open Scope string_scope.

(* ===================================================================== *)
(** * The Python runtime fragment                                         *)
(* ===================================================================== *)

Module Py.

(** ** Strings *)

(** [sep.join(l)] *)
Definition join (sep : string) (l : list string) : string := String.concat sep l.

(** [s[:n]] for [n >= 0] *)
Definition slice_to (n : nat) (s : string) : string := substring 0 n s.

(** [c.isspace()] on code points below 256: TAB, LF, VT, FF, CR, the
    separators FS, GS, RS, US, SPACE, NEL (0x85) and NBSP (0xa0). *)
Definition isspace (c : ascii) : bool :=
  let n := nat_of_ascii c in
  (((9 <=? n) && (n <=? 13)) || ((28 <=? n) && (n <=? 32))
   || (n =? 133) || (n =? 160))%nat.

Fixpoint lstrip (s : string) : string :=
  match s with
  | String c s' => if isspace c then lstrip s' else s
  | EmptyString => EmptyString
  end.

Fixpoint rstrip (s : string) : string :=
  match s with
  | String c s' =>
      match rstrip s' with
      | EmptyString => if isspace c then EmptyString else String c EmptyString
      | r => String c r
      end
  | EmptyString => EmptyString
  end.

(** [s.strip()] *)
Definition strip (s : string) : string := rstrip (lstrip s).

Fixpoint contains (c : ascii) (s : string) : bool :=
  match s with
  | String c' s' => Ascii.eqb c c' || contains c s'
  | EmptyString => false
  end.

Definition dquote : ascii := ascii_of_nat 34.
Definition squote : ascii := ascii_of_nat 39.
Definition backslash : ascii := ascii_of_nat 92.

(** a one-character string, and a backslash escape *)
Definition chr (c : ascii) : string := String c EmptyString.
Definition esc (s : string) : string := String backslash s.

Definition hex_digit (n : nat) : ascii :=
  if (n <? 10)%nat then ascii_of_nat (48 + n) else ascii_of_nat (87 + n).

(** two lower-case hexadecimal digits of a code point below 256 *)
Definition hex2 (c : ascii) : string :=
  let n := nat_of_ascii c in
  String (hex_digit (n / 16)) (chr (hex_digit (n mod 16))).

(** [c.isprintable()] for a code point at or above 0x7f and below 256:
    the C1 controls, NBSP and the soft hyphen are not printable. *)
Definition isprintable_high (n : nat) : bool :=
  ((161 <=? n) && negb (n =? 173))%nat.

(** One character of [repr(s)], [q] being the quote chosen for [s]. *)
Definition repr_char (q c : ascii) : string :=
  let n := nat_of_ascii c in
  if Ascii.eqb c q || Ascii.eqb c backslash then esc (chr c)
  else if (n =? 9)%nat then esc "t"
  else if (n =? 10)%nat then esc "n"
  else if (n =? 13)%nat then esc "r"
  else if ((n <? 32) || (n =? 127))%nat then esc "x" ++ hex2 c
  else if (n <? 127)%nat then chr c
  else if isprintable_high n then chr c
  else esc "x" ++ hex2 c.

Fixpoint repr_body (q : ascii) (s : string) : string :=
  match s with
  | String c s' => repr_char q c ++ repr_body q s'
  | EmptyString => EmptyString
  end.

(** [repr(s)] of a [str]: single quotes, unless the text has a single
    quote and no double quote. *)
Definition repr_str (s : string) : string :=
  let q := if contains squote s && negb (contains dquote s)
           then dquote else squote in
  String q (repr_body q s ++ chr q).

(** One character of [json.dumps(s, ensure_ascii=False)]. *)
Definition json_char (c : ascii) : string :=
  let n := nat_of_ascii c in
  if (n =? 34)%nat then esc (chr dquote)
  else if (n =? 92)%nat then esc (chr backslash)
  else if (n =? 10)%nat then esc "n"
  else if (n =? 13)%nat then esc "r"
  else if (n =? 9)%nat then esc "t"
  else if (n =? 8)%nat then esc "b"
  else if (n =? 12)%nat then esc "f"
  else if (n <? 32)%nat then esc "u00" ++ hex2 c
  else chr c.

Fixpoint json_body (s : string) : string :=
  match s with
  | String c s' => json_char c ++ json_body s'
  | EmptyString => EmptyString
  end.

Definition json_str (s : string) : string :=
  String dquote (json_body s ++ chr dquote).

(** [str(n)] of an [int], for the integers the interpreter converts
    (CPython 3.11 and later refuse those of more than 4300 digits) *)
Definition str_int (n : Z) : string := NilZero.string_of_int (Z.to_int n).

(** ** Values *)

(** A [float] is observed by the handler through its truth value and
    its renderings only: a finite float carries whether it is non-zero
    and the text of [float.__repr__]. *)
Inductive pyfloat : Type :=
| FFinite (nonzero : bool) (repr : string)
| FNan
| FInf (negative : bool).

(** The values [json.loads] produces; a [dict] keeps insertion order. *)
Inductive pyval : Type :=
| PNone
| PBool (b : bool)
| PInt (n : Z)
| PFloat (f : pyfloat)
| PStr (s : string)
| PList (l : list pyval)
| PDict (d : list (string * pyval)).

Definition float_truthy (f : pyfloat) : bool :=
  match f with
  | FFinite nz _ => nz
  | FNan => true
  | FInf _ => true
  end.

Definition float_str (f : pyfloat) : string :=
  match f with
  | FFinite _ r => r
  | FNan => "nan"
  | FInf false => "inf"
  | FInf true => "-inf"
  end.

Definition float_json (f : pyfloat) : string :=
  match f with
  | FFinite _ r => r
  | FNan => "NaN"
  | FInf false => "Infinity"
  | FInf true => "-Infinity"
  end.

(** [bool(v)] *)
Definition truthy (v : pyval) : bool :=
  match v with
  | PNone => false
  | PBool b => b
  | PInt n => negb (n =? 0)%Z
  | PFloat f => float_truthy f
  | PStr s => match s with EmptyString => false | _ => true end
  | PList l => match l with [] => false | _ => true end
  | PDict d => match d with [] => false | _ => true end
  end.

(** [repr(v)] *)
Fixpoint repr (v : pyval) : string :=
  match v with
  | PNone => "None"
  | PBool true => "True"
  | PBool false => "False"
  | PInt n => str_int n
  | PFloat f => float_str f
  | PStr s => repr_str s
  | PList l => "[" ++ join ", " (map repr l) ++ "]"
  | PDict d =>
      "{" ++ join ", " (map (fun '(k, x) => repr_str k ++ ": " ++ repr x) d) ++ "}"
  end.

(** [str(v)], which is also [format(v, '')], the rendering of [{v}] in
    an f-string. *)
Definition str (v : pyval) : string :=
  match v with
  | PStr s => s
  | _ => repr v
  end.

(** [json.dumps(v, ensure_ascii=False)] *)
Fixpoint json_dumps (v : pyval) : string :=
  match v with
  | PNone => "null"
  | PBool true => "true"
  | PBool false => "false"
  | PInt n => str_int n
  | PFloat f => float_json f
  | PStr s => json_str s
  | PList l => "[" ++ join ", " (map json_dumps l) ++ "]"
  | PDict d =>
      "{" ++ join ", " (map (fun '(k, x) => json_str k ++ ": " ++ json_dumps x) d) ++ "}"
  end.

(** ** Dictionaries *)

(** [d[k]] when [k in d] *)
Fixpoint lookup (k : string) (d : list (string * pyval)) : option pyval :=
  match d with
  | [] => None
  | (k', v) :: d' => if k =? k' then Some v else lookup k d'
  end.

(** [d.get(k)], which is [None] for a missing key *)
(** [d.get(k, default)] *)
Definition get_default (d : list (string * pyval)) (k : string) (dflt : pyval) : pyval :=
  match lookup k d with
  | Some v => v
  | None => dflt
  end.

(** [d.get(k)], which is [None] for a missing key *)
Definition get (d : list (string * pyval)) (k : string) : pyval := get_default d k PNone.

(** [list(d.values())] *)
Definition values (d : list (string * pyval)) : list pyval := map snd d.

(** [a or b] *)
Definition por (a b : pyval) : pyval := if truthy a then a else b.

End Py.

Import Py.

(* ===================================================================== *)
(** * Exceptions, responses and the handler monad                         *)
(* ===================================================================== *)

(** The exceptions the handler can meet.  [Raised msg] is an [Exception]
    raised by Flask or by a third-party call, [msg] being its [str()]. *)
Inductive exn : Type :=
| UnboundLocalError (name : string)
| AttributeError (msg : string)
| Raised (msg : string).

(** What a view function hands back to Flask: the dictionary given to
    [jsonify] and the status code ([200] when the view returns the bare
    [jsonify(...)]). *)
Record response : Type := mkResponse {
  body : list (string * pyval);
  status : Z
}.

(** The third-party calls, in the order the handler makes them. *)
Inductive event : Type :=
| EvLoad (url : pyval)                      (* WebBaseLoader(url).load() *)
| EvSplit (chunk_size chunk_overlap : Z)    (* text_splitter.split_documents(docs) *)
| EvIndex                                   (* FAISS.from_documents(splits, embeddings) *)
| EvChain                                   (* RetrievalQA.from_chain_type(...) *)
| EvInvoke (query : pyval)                  (* qa_chain.invoke({"query": question}) *)
| EvLLM (prompt : string)                   (* llm.invoke(structured_prompt) *)
| EvParse (text : pyval).                   (* structured_parser.parse(structured_output) *)

(** The frame of one call of [handle_query]: the calls made so far and
    the two locals that are read after a point where they may not have
    been assigned. *)
Record frame : Type := mkFrame {
  trace : list event;
  raw_answer : option pyval;
  answer_text : option pyval
}.

Definition initial_frame : frame := mkFrame [] None None.

(** How a block can end other than by reaching its last statement. *)
Inductive abrupt : Type :=
| AReturn (r : response)
| ARaise (e : exn).

Definition M (A : Type) : Type := frame -> frame * (A + abrupt).

Definition ret {A} (a : A) : M A := fun s => (s, inl a).

Definition bind {A B} (m : M A) (k : A -> M B) : M B :=
  fun s =>
    match m s with
    | (s', inl a) => k a s'
    | (s', inr ab) => (s', inr ab)
    end.

Notation "x <- m ;; k" := (bind m (fun x => k))
  (at level 100, m at next level, right associativity).
Notation "m ;;; k" := (bind m (fun _ => k))
  (at level 100, right associativity).

(** [return r] *)
Definition return_ {A} (r : response) : M A := fun s => (s, inr (AReturn r)).

(** [raise e] *)
Definition raise {A} (e : exn) : M A := fun s => (s, inr (ARaise e)).

(** A third-party call: it is recorded, then it returns or raises. *)
Definition call {A} (ev : event) (r : exn + A) : M A :=
  fun s =>
    let s' := mkFrame (trace s ++ [ev])%list (raw_answer s) (answer_text s) in
    match r with
    | inr a => (s', inl a)
    | inl e => (s', inr (ARaise e))
    end.

(** A Flask call that is not part of the pipeline ([request.json]). *)
Definition lift {A} (r : exn + A) : M A :=
  match r with
  | inr a => ret a
  | inl e => raise e
  end.

Definition set_raw_answer (v : pyval) : M unit :=
  fun s => (mkFrame (trace s) (Some v) (answer_text s), inl tt).

Definition set_answer_text (v : pyval) : M unit :=
  fun s => (mkFrame (trace s) (raw_answer s) (Some v), inl tt).

(** Reading a local raises [UnboundLocalError] while it is unassigned. *)
Definition read_raw_answer : M pyval :=
  fun s =>
    match raw_answer s with
    | Some v => (s, inl v)
    | None => (s, inr (ARaise (UnboundLocalError "raw_answer")))
    end.

Definition read_answer_text : M pyval :=
  fun s =>
    match answer_text s with
    | Some v => (s, inl v)
    | None => (s, inr (ARaise (UnboundLocalError "answer_text")))
    end.

(** [try: body finally: fin].  The [finally] suite runs however the
    body ends.  When it runs to its end the body's own ending stands;
    when it returns or raises, that replaces it. *)
Definition try_finally (body fin : M unit) : M unit :=
  fun s =>
    let (s1, r1) := body s in
    match fin s1 with
    | (s2, inl _) => (s2, r1)
    | (s2, inr ab) => (s2, inr ab)
    end.

(** [try: body except Exception as e: handler(e)] *)
Definition try_except (body : M unit) (handler : exn -> M unit) : M unit :=
  fun s =>
    match body s with
    | (s1, inr (ARaise e)) => handler e s1
    | r => r
    end.

(** [type(v).__name__] *)
Definition type_name (v : pyval) : string :=
  match v with
  | PNone => "NoneType"
  | PBool _ => "bool"
  | PInt _ => "int"
  | PFloat _ => "float"
  | PStr _ => "str"
  | PList _ => "list"
  | PDict _ => "dict"
  end.

(** [v.get(k, dflt)]: only a [dict] has the method. *)
Definition method_get (v : pyval) (k : string) (dflt : pyval) : M pyval :=
  match v with
  | PDict d => ret (get_default d k dflt)
  | _ => raise (AttributeError ("'" ++ type_name v ++ "' object has no attribute 'get'"))
  end.

(** [jsonify(d), code] *)
Definition jsonify (d : list (string * pyval)) (code : Z) : response := mkResponse d code.

Definition error_response (msg : string) (code : Z) : response :=
  jsonify [("error", PStr msg)] code.

(* ===================================================================== *)
(** * The process: module globals and third-party calls                   *)
(* ===================================================================== *)

(** The state of the module after import, and what the libraries do
    when called.  The handles and intermediate objects are opaque; each
    call either raises an [Exception] or returns. *)
Record World : Type := mkWorld {
  ChatModel : Type;
  Embedder : Type;
  Parser : Type;
  Docs : Type;
  Splits : Type;
  Store : Type;
  Chain : Type;
  (* module globals, fixed once the module is imported *)
  llm : option ChatModel;
  embeddings : option Embedder;
  structured_parser : option Parser;
  format_instructions : string;
  (* WebBaseLoader(url).load() *)
  web_load : pyval -> exn + Docs;
  (* RecursiveCharacterTextSplitter(chunk_size, chunk_overlap).split_documents(docs) *)
  split_documents : Z -> Z -> Docs -> exn + Splits;
  (* FAISS.from_documents(splits, embeddings) *)
  faiss_from_documents : Splits -> Embedder -> exn + Store;
  (* RetrievalQA.from_chain_type(llm, chain_type="stuff", retriever=store.as_retriever()) *)
  retrieval_qa : ChatModel -> Store -> exn + Chain;
  (* qa_chain.invoke(inputs) *)
  chain_invoke : Chain -> pyval -> exn + pyval;
  (* getattr(llm.invoke(prompt), 'content', ...) *)
  llm_invoke : ChatModel -> string -> exn + pyval;
  (* structured_parser.parse(text) *)
  parser_parse : Parser -> pyval -> exn + pyval;
  (* the interpreter's message for reading an unassigned local *)
  unbound_local_message : string -> string
}.

(** [str(e)] *)
Definition exn_str (w : World) (e : exn) : string :=
  match e with
  | UnboundLocalError name => unbound_local_message w name
  | AttributeError msg => msg
  | Raised msg => msg
  end.

(** A request, as the handler sees it: what [request.json] gives. *)
Record Request : Type := mkRequest {
  request_json : exn + pyval
}.

(* ===================================================================== *)
(** * The handler                                                         *)
(* ===================================================================== *)

(** [isinstance(v, dict)] *)
Definition is_dict (v : pyval) : bool :=
  match v with PDict _ => true | _ => false end.

(** [isinstance(v, list)] *)
Definition is_list (v : pyval) : bool :=
  match v with PList _ => true | _ => false end.

(** ['k' in obj and obj['k']], as a condition *)
Definition present_nonempty (d : list (string * pyval)) (k : string) : bool :=
  match lookup k d with
  | Some v => truthy v
  | None => false
  end.

(** [json.dumps(v, ensure_ascii=False) if isinstance(v, (list, dict)) else str(v)] *)
Definition render_value (v : pyval) : string :=
  if is_list v || is_dict v then json_dumps v else str v.

(** [sections[0] if isinstance(sections, list) and sections else sections] *)
Definition first_of (sections : pyval) : pyval :=
  match sections with
  | PList (x :: _) => x
  | _ => sections
  end.

(** Lines 236-256.  No operation of the body raises on the values of
    [pyval], so the [except Exception: return None] suite has no case
    here; [None] is the result for an object that is neither a [dict]
    nor a [list]. *)
Definition _concise_from_structured (obj : pyval) : option string :=
  match obj with
  | PDict d =>
      if present_nonempty d "answer" then Some (strip (str (get d "answer")))
      else if present_nonempty d "summary" then Some (strip (str (get d "summary")))
      else
        let title := por (get d "title") (get d "heading") in
        let sections := por (por (get d "sections") (get d "bullets")) (get d "body") in
        if truthy title && truthy sections then
          Some (str title ++ ": " ++ str (first_of sections))
        else
          let vals := map render_value (filter truthy (values d)) in
          Some (slice_to 2000 (join " " vals))
  | PList l =>
      let items := map str (filter truthy l) in
      Some (join " " (firstn 5 items))
  | _ => None
  end.

(** [_concise_from_structured(parsed) or ""] *)
Definition concise_of (parsed : pyval) : string :=
  match _concise_from_structured parsed with
  | Some s => s
  | None => EmptyString
  end.

Definition missing_input_message : string := "Missing 'url' or 'question' in request.".
Definition models_message : string := "AI models are not initialized. Check server logs.".
Definition parser_message : string :=
  "StructuredOutputParser is not available on the server. Install a compatible LangChain variant.".
Definition unstructured_message : string :=
  "StructuredOutputParser did not return structured data.".

(** Lines 217-222 *)
Definition structured_prompt (w : World) (answer : pyval) : string :=
  " Reform the following into EXACT schema:"
  ++ "Answer:" ++ chr (ascii_of_nat 10) ++ str answer
  ++ chr (ascii_of_nat 10) ++ chr (ascii_of_nat 10)
  ++ "Schema:" ++ chr (ascii_of_nat 10) ++ format_instructions w
  ++ chr (ascii_of_nat 10) ++ chr (ascii_of_nat 10).

(** Lines 149-191: the suite of the [try]. *)
Definition try_suite (w : World) (l : ChatModel w) (e : Embedder w) (req : Request) : M unit :=
  data <- lift (request_json req) ;;
  url <- method_get data "url" PNone ;;
  question <- method_get data "question" PNone ;;
  if negb (truthy url) || negb (truthy question) then
    return_ (error_response missing_input_message 400)
  else
    docs <- call (EvLoad url) (web_load w url) ;;
    splits <- call (EvSplit 2000 200) (split_documents w 2000 200 docs) ;;
    vectorstore <- call EvIndex (faiss_from_documents w splits e) ;;
    qa_chain <- call EvChain (retrieval_qa w l vectorstore) ;;
    let inputs := PDict [("query", question)] in
    ra <- call (EvInvoke inputs) (chain_invoke w qa_chain inputs) ;;
    set_raw_answer ra ;;;
    result <- method_get ra "result" (PStr EmptyString) ;;
    set_answer_text result.

(** Lines 216-268: the inner [try ... except Exception]. *)
Definition structured_suite (w : World) (l : ChatModel w) (p : Parser w) (raw_clean : pyval) : M unit :=
  try_except
    (answer <- read_answer_text ;;
     let prompt := structured_prompt w answer in
     structured_output <- call (EvLLM prompt) (llm_invoke w l prompt) ;;
     parsed <- call (EvParse structured_output) (parser_parse w p structured_output) ;;
     if negb (is_dict parsed || is_list parsed) then
       return_ (error_response unstructured_message 500)
     else
       let concise := concise_of parsed in
       return_ (jsonify [("answer", PStr concise); ("raw", raw_clean); ("structured", parsed)] 200))
    (fun ex => return_ (error_response (exn_str w ex) 500)).

(** Lines 203-206 *)
Definition raw_clean_of (ra : pyval) : pyval :=
  if is_dict ra then ra else PDict [("result", PStr (str ra))].

(** Lines 193-268: the suite of the [finally].  Everything from line 195
    on is indented under [finally:], so it belongs to this suite. *)
Definition finally_suite (w : World) (l : ChatModel w) : M unit :=
  ra <- read_raw_answer ;;
  let raw_clean := raw_clean_of ra in
  match structured_parser w with
  | None => return_ (error_response parser_message 500)
  | Some p => structured_suite w l p raw_clean
  end.

(** How a call of the view function ends. *)
Inductive outcome : Type :=
| Returns (r : response)
| ReturnsNone
| Raises (e : exn).

Definition finish (r : unit + abrupt) : outcome :=
  match r with
  | inl _ => ReturnsNone
  | inr (AReturn resp) => Returns resp
  | inr (ARaise e) => Raises e
  end.

(** Lines 137-268 *)
Definition handle_query (w : World) (req : Request) : frame * outcome :=
  match llm w, embeddings w with
  | Some l, Some e =>
      let (s, r) := try_finally (try_suite w l e req) (finally_suite w l) initial_frame in
      (s, finish r)
  | _, _ => (initial_frame, Returns (error_response models_message 500))
  end.

(** The calls made while serving the request, and its result. *)
Definition calls_of (w : World) (req : Request) : list event := trace (fst (handle_query w req)).
Definition result_of (w : World) (req : Request) : outcome := snd (handle_query w req).

(* ===================================================================== *)
(** * A stub process                                                      *)
(* ===================================================================== *)

(** A process whose libraries are stubs: the page loader, splitter,
    index and chain constructor succeed on unit objects, the chain
    returns [chain_out], the chat model returns a fixed text and the
    parser returns [parse_out].  [parser_present] tells whether
    [structured_parser] was initialised. *)
Definition stub_world (parser_present : bool) (chain_out parse_out : exn + pyval) : World :=
  {| ChatModel := unit; Embedder := unit; Parser := unit;
     Docs := unit; Splits := unit; Store := unit; Chain := unit;
     llm := Some tt;
     embeddings := Some tt;
     structured_parser := if parser_present then Some tt else None;
     format_instructions := "title, sections";
     web_load := fun _ => inr tt;
     split_documents := fun _ _ _ => inr tt;
     faiss_from_documents := fun _ _ => inr tt;
     retrieval_qa := fun _ _ => inr tt;
     chain_invoke := fun _ _ => chain_out;
     llm_invoke := fun _ _ => inr (PStr "json");
     parser_parse := fun _ _ => parse_out;
     unbound_local_message := fun name => "local variable '" ++ name ++ "' referenced before assignment" |}.

Definition cats_url : pyval := PStr "http://example.test/cats".
Definition cats_question : pyval := PStr "What are cats?".

Definition cats_request : Request :=
  mkRequest (inr (PDict [("url", cats_url); ("question", cats_question)])).

Definition cats_chain_output : pyval :=
  PDict [("query", cats_question); ("result", PStr "Cats are mammals.")].

Definition cats_world (parse_out : pyval) : World :=
  stub_world true (inr cats_chain_output) (inr parse_out).

(** The calls of a request whose retrieval chain is invoked. *)
Definition pipeline_calls (url question : pyval) : list event :=
  [EvLoad url; EvSplit 2000 200; EvIndex; EvChain; EvInvoke (PDict [("query", question)])].

(** The process after the model initialisation of lines 81-130 failed:
    [llm] and [embeddings] are both [None]. *)
Definition cold_world : World :=
  {| ChatModel := unit; Embedder := unit; Parser := unit;
     Docs := unit; Splits := unit; Store := unit; Chain := unit;
     llm := None;
     embeddings := None;
     structured_parser := Some tt;
     format_instructions := "title, sections";
     web_load := fun _ => inr tt;
     split_documents := fun _ _ _ => inr tt;
     faiss_from_documents := fun _ _ => inr tt;
     retrieval_qa := fun _ _ => inr tt;
     chain_invoke := fun _ _ => inr cats_chain_output;
     llm_invoke := fun _ _ => inr (PStr "json");
     parser_parse := fun _ _ => inr (PDict []);
     unbound_local_message := fun name => "local variable '" ++ name ++ "' referenced before assignment" |}.

(** A body with a question and no URL. *)
Definition question_only_request : Request :=
  mkRequest (inr (PDict [("question", cats_question)])).

(** The process of the stub whose structured parser is missing. *)
Definition parserless_world : World := stub_world false (inr cats_chain_output) (inr PNone).

Definition six_letters : pyval :=
  PList [PStr "a"; PStr "b"; PStr "c"; PStr "d"; PStr "e"; PStr "f"].

(** ** Situations of a request *)

(** The retrieval chain of the request runs to completion: the body has
    a non-empty [url] and [question], and the page load, the split, the
    index, the chain construction and the chain invocation all return;
    [ra] is what line 190 assigns to [raw_answer]. *)
Inductive Retrieves (w : World) (l : ChatModel w) (e : Embedder w) (req : Request)
  : pyval -> pyval -> pyval -> Prop :=
| Retrieves_intro d docs splits store chain ra :
    request_json req = inr (PDict d) ->
    truthy (get d "url") = true ->
    truthy (get d "question") = true ->
    web_load w (get d "url") = inr docs ->
    split_documents w 2000 200 docs = inr splits ->
    faiss_from_documents w splits e = inr store ->
    retrieval_qa w l store = inr chain ->
    chain_invoke w chain (PDict [("query", get d "question")]) = inr ra ->
    Retrieves w l e req (get d "url") (get d "question") ra.

(** The request reaches line 229 and the parser returns [parsed]: all
    three capabilities are initialised, the chain returned the mapping
    [ra], and the reformatting call and the parse both return. *)
Inductive Parses (w : World) (req : Request) : pyval -> pyval -> Prop :=
| Parses_intro l e p url question rd out parsed :
    llm w = Some l ->
    embeddings w = Some e ->
    structured_parser w = Some p ->
    Retrieves w l e req url question (PDict rd) ->
    llm_invoke w l (structured_prompt w (get_default rd "result" (PStr EmptyString))) = inr out ->
    parser_parse w p out = inr parsed ->
    Parses w req (PDict rd) parsed.

(** The [try] suite is left before line 190 assigns [raw_answer]: by the
    [return] of line 154, or by an exception of the page load, the
    split, the index construction, the chain construction or the chain
    invocation. *)
Inductive ExitsEarly (w : World) (l : ChatModel w) (e : Embedder w) (req : Request) : Prop :=
| Exit_missing d :
    request_json req = inr (PDict d) ->
    truthy (get d "url") = false \/ truthy (get d "question") = false ->
    ExitsEarly w l e req
| Exit_load d ex :
    request_json req = inr (PDict d) ->
    truthy (get d "url") = true -> truthy (get d "question") = true ->
    web_load w (get d "url") = inl ex ->
    ExitsEarly w l e req
| Exit_split d docs ex :
    request_json req = inr (PDict d) ->
    truthy (get d "url") = true -> truthy (get d "question") = true ->
    web_load w (get d "url") = inr docs ->
    split_documents w 2000 200 docs = inl ex ->
    ExitsEarly w l e req
| Exit_index d docs splits ex :
    request_json req = inr (PDict d) ->
    truthy (get d "url") = true -> truthy (get d "question") = true ->
    web_load w (get d "url") = inr docs ->
    split_documents w 2000 200 docs = inr splits ->
    faiss_from_documents w splits e = inl ex ->
    ExitsEarly w l e req
| Exit_chain d docs splits store ex :
    request_json req = inr (PDict d) ->
    truthy (get d "url") = true -> truthy (get d "question") = true ->
    web_load w (get d "url") = inr docs ->
    split_documents w 2000 200 docs = inr splits ->
    faiss_from_documents w splits e = inr store ->
    retrieval_qa w l store = inl ex ->
    ExitsEarly w l e req
| Exit_invoke d docs splits store chain ex :
    request_json req = inr (PDict d) ->
    truthy (get d "url") = true -> truthy (get d "question") = true ->
    web_load w (get d "url") = inr docs ->
    split_documents w 2000 200 docs = inr splits ->
    faiss_from_documents w splits e = inr store ->
    retrieval_qa w l store = inr chain ->
    chain_invoke w chain (PDict [("query", get d "question")]) = inl ex ->
    ExitsEarly w l e req.

(** The three-field body of a success response. *)
Definition envelope (concise : string) (raw parsed : pyval) : list (string * pyval) :=
  [("answer", PStr concise); ("raw", raw); ("structured", parsed)].

(** The top-level shapes section 4.4 of the specification names as
    valid: a mapping, or a sequence of mappings. *)
Definition mapping_or_mappings (v : pyval) : bool :=
  match v with
  | PDict _ => true
  | PList l => forallb is_dict l
  | _ => false
  end.

(** The first of the keys [ks] that [d] holds with a non-empty value. *)
Fixpoint first_nonempty (d : list (string * pyval)) (ks : list string) : option pyval :=
  match ks with
  | [] => None
  | k :: ks' => if truthy (get d k) then Some (get d k) else first_nonempty d ks'
  end.

(** The frame the [try] suite leaves when the chain returned [ra]. *)
Definition frame_after_chain (url question ra : pyval) : frame :=
  mkFrame (pipeline_calls url question) (Some ra)
          (match ra with
           | PDict rd => Some (get_default rd "result" (PStr EmptyString))
           | _ => None
           end).

(** Unfolds the combinators of the handler monad. *)
Ltac run_monad :=
  cbv beta delta [bind ret lift call raise return_ method_get set_raw_answer
                  set_answer_text read_raw_answer read_answer_text
                  try_finally try_except] iota zeta.

(* ===================================================================== *)
(** * The other views, and the import of the module                       *)
(* ===================================================================== *)

(** Lines 270-273 *)
Definition ping : response := jsonify [("status", PStr "ok")] 200.

(** [x is not None] *)
Definition is_not_none {A} (x : option A) : bool :=
  match x with Some _ => true | None => false end.

(** Lines 276-282 *)
Definition health (w : World) : response :=
  jsonify [("llm_initialized", PBool (is_not_none (llm w)));
           ("embeddings_initialized", PBool (is_not_none (embeddings w)))] 200.

(** What the import of the module attempts, in order. *)
Inductive boot_event : Type :=
| BootImportModern                  (* from langchain.output_parsers import ... *)
| BootImportClassic                 (* from langchain_classic.output_parsers import ... *)
| BootSchema (name : string)        (* ResponseSchema(name=..., description=...) *)
| BootFactory                       (* StructuredOutputParser.from_response_schemas(...) *)
| BootInstructions                  (* structured_parser.get_format_instructions() *)
| BootChatModel (model : string)    (* ChatGoogleGenerativeAI(model=...) *)
| BootEmbedder (model_name : string). (* import sentence_transformers; the wrapper's constructor *)

(** What the imports and constructors of lines 15-130 do when the module
    is imported.  [libs] gives the libraries the handler calls later; its
    four globals are the ones the import computes and are not read. *)
Record Startup : Type := mkStartup {
  libs : World;
  ParserLib : Type;
  Schema : Type;
  import_modern : exn + ParserLib;
  import_classic : exn + ParserLib;
  (* hasattr(StructuredOutputParser, 'from_response_schemas') *)
  has_from_response_schemas : ParserLib -> bool;
  response_schema : ParserLib -> string -> string -> exn + Schema;
  from_response_schemas : ParserLib -> list Schema -> exn + Parser libs;
  get_format_instructions : Parser libs -> exn + string;
  new_chat_model : string -> exn + ChatModel libs;
  new_embedder : string -> exn + Embedder libs
}.

(** Module-level code: the attempts made so far, and a value or an
    exception. *)
Definition Boot (A : Type) : Type := (list boot_event * (exn + A))%type.

Definition boot_ret {A} (a : A) : Boot A := ([], inr a).

Definition boot_raise {A} (e : exn) : Boot A := ([], inl e).

Definition boot_bind {A B} (m : Boot A) (k : A -> Boot B) : Boot B :=
  match m with
  | (tr, inr a) => let (tr', r) := k a in ((tr ++ tr')%list, r)
  | (tr, inl e) => (tr, inl e)
  end.

(** [try: m except Exception: handler] *)
Definition boot_try {A} (m : Boot A) (handler : exn -> Boot A) : Boot A :=
  match m with
  | (tr, inl e) => let (tr', r) := handler e in ((tr ++ tr')%list, r)
  | (tr, inr a) => (tr, inr a)
  end.

Definition attempt {A} (ev : boot_event) (r : exn + A) : Boot A := ([ev], r).

Notation "x <~ m ;; k" := (boot_bind m (fun x => k))
  (at level 100, m at next level, right associativity).

Definition title_description : string :=
  "Main topic or heading extracted from the content.".
Definition sections_description : string := "List of sections with bullet points.".
Definition chat_model_name : string := "gemini-2.5-flash-preview-09-2025".
Definition embedding_model_name : string := "all-MiniLM-L6-v2".

(** Lines 18-46: the suite of the inner [try]. *)
Definition parser_suite (st : Startup) : Boot (Parser (libs st) * string) :=
  lib <~ boot_try (attempt BootImportModern (import_modern st))
                  (fun _ => attempt BootImportClassic (import_classic st)) ;;
  if negb (has_from_response_schemas st lib) then
    boot_raise (Raised "StructuredOutputParser missing from_response_schemas API")
  else
    title <~ attempt (BootSchema "title") (response_schema st lib "title" title_description) ;;
    sections <~ attempt (BootSchema "sections")
                        (response_schema st lib "sections" sections_description) ;;
    parser <~ attempt BootFactory (from_response_schemas st lib [title; sections]) ;;
    instructions <~ boot_try (attempt BootInstructions (get_format_instructions st parser))
                             (fun _ => boot_ret EmptyString) ;;
    boot_ret (parser, instructions).

(** Lines 15-54: [structured_parser] and [format_instructions]. *)
Definition init_parser (st : Startup) : list boot_event * (option (Parser (libs st)) * string) :=
  match parser_suite st with
  | (tr, inr (parser, instructions)) => (tr, (Some parser, instructions))
  | (tr, inl _) => (tr, (None, EmptyString))
  end.

(** Lines 81-130: [llm] and [embeddings]. *)
Definition init_models (st : Startup)
  : list boot_event * (option (ChatModel (libs st)) * option (Embedder (libs st))) :=
  match attempt (BootChatModel chat_model_name) (new_chat_model st chat_model_name) with
  | (tr, inr l) =>
      match attempt (BootEmbedder embedding_model_name)
                    (new_embedder st embedding_model_name) with
      | (tr', inr e) => ((tr ++ tr')%list, (Some l, Some e))
      | (tr', inl _) => ((tr ++ tr')%list, (Some l, None))
      end
  | (tr, inl _) => (tr, (None, None))
  end.

(** The libraries of [w] with the four globals set. *)
Definition with_globals (w : World) (l : option (ChatModel w)) (e : option (Embedder w))
    (p : option (Parser w)) (instructions : string) : World :=
  {| ChatModel := ChatModel w; Embedder := Embedder w; Parser := Parser w;
     Docs := Docs w; Splits := Splits w; Store := Store w; Chain := Chain w;
     llm := l;
     embeddings := e;
     structured_parser := p;
     format_instructions := instructions;
     web_load := web_load w;
     split_documents := split_documents w;
     faiss_from_documents := faiss_from_documents w;
     retrieval_qa := retrieval_qa w;
     chain_invoke := chain_invoke w;
     llm_invoke := llm_invoke w;
     parser_parse := parser_parse w;
     unbound_local_message := unbound_local_message w |}.

(** The import of the module: lines 15-54, then lines 81-130. *)
Definition boot (st : Startup) : list boot_event * World :=
  let parser_part := init_parser st in
  let models_part := init_models st in
  ((fst parser_part ++ fst models_part)%list,
   with_globals (libs st)
     (fst (snd models_part)) (snd (snd models_part))
     (fst (snd parser_part)) (snd (snd parser_part))).

Definition boot_attempts (st : Startup) : list boot_event := fst (boot st).
Definition booted (st : Startup) : World := snd (boot st).

(** A start-up over the stub libraries: [modern] and [classic] are what
    the two imports give (a library is described by whether it has the
    factory method), [instructions] what [get_format_instructions]
    does, [chat] and [embedder] what the two model constructors do. *)
Definition stub_startup (modern classic : exn + bool) (instructions : exn + string)
    (chat embedder : exn + unit) : Startup :=
  {| libs := stub_world false (inr cats_chain_output) (inr (PDict []));
     ParserLib := bool;
     Schema := string;
     import_modern := modern;
     import_classic := classic;
     has_from_response_schemas := fun lib => lib;
     response_schema := fun _ name _ => inr name;
     from_response_schemas := fun _ _ => inr tt;
     get_format_instructions := fun _ => instructions;
     new_chat_model := fun _ => chat;
     new_embedder := fun _ => embedder |}.

(** The stub process whose chat model refuses the reformatting call. *)
Definition quota_world : World :=
  {| ChatModel := unit; Embedder := unit; Parser := unit;
     Docs := unit; Splits := unit; Store := unit; Chain := unit;
     llm := Some tt;
     embeddings := Some tt;
     structured_parser := Some tt;
     format_instructions := "title, sections";
     web_load := fun _ => inr tt;
     split_documents := fun _ _ _ => inr tt;
     faiss_from_documents := fun _ _ => inr tt;
     retrieval_qa := fun _ _ => inr tt;
     chain_invoke := fun _ _ => inr cats_chain_output;
     llm_invoke := fun _ _ => inl (Raised "429 quota exceeded");
     parser_parse := fun _ _ => inr (PDict []);
     unbound_local_message := fun name => "local variable '" ++ name ++ "' referenced before assignment" |}.

(** A body that is a JSON list. *)
Definition list_body_request : Request := mkRequest (inr (PList [cats_url; cats_question])).

(** ** Situations of a start-up *)

(** The library the imports of lines 18-21 settle on: the modern one
    when its import returns, the classic one when the modern import
    raises and the classic import returns. *)
Inductive ChosenLib (st : Startup) : ParserLib st -> Prop :=
| Chosen_modern lib :
    import_modern st = inr lib -> ChosenLib st lib
| Chosen_classic ex lib :
    import_modern st = inl ex -> import_classic st = inr lib -> ChosenLib st lib.

(** Lines 26-36 build the parser [p]: the chosen library has the
    factory method, both schemas are constructed and the factory
    returns [p]. *)
Inductive BuildsParser (st : Startup) : Parser (libs st) -> Prop :=
| BuildsParser_intro lib title sections p :
    ChosenLib st lib ->
    has_from_response_schemas st lib = true ->
    response_schema st lib "title" title_description = inr title ->
    response_schema st lib "sections" sections_description = inr sections ->
    from_response_schemas st lib [title; sections] = inr p ->
    BuildsParser st p.

(** ** Vocabulary of the further properties *)

(** The place of a call in the pipeline. *)
Definition stage (ev : event) : nat :=
  match ev with
  | EvLoad _ => 0
  | EvSplit _ _ => 1
  | EvIndex => 2
  | EvChain => 3
  | EvInvoke _ => 4
  | EvLLM _ => 5
  | EvParse _ => 6
  end.

(** Every character of the text is white space. *)
Fixpoint all_space (s : string) : bool :=
  match s with
  | String c s' => isspace c && all_space s'
  | EmptyString => true
  end.

(** The value joined in the fallback branch of lines 249-250, before
    the cut. *)
Definition joined_values (d : list (string * pyval)) : string :=
  join " " (map render_value (filter truthy (values d))).

(** The mapping without its entries of empty value,
    [{k: v for k, v in d.items() if v}]. *)
Definition drop_empty (d : list (string * pyval)) : list (string * pyval) :=
  filter (fun kv => truthy (snd kv)) d.

(** Two values that are both empty, or equal. *)
Definition same_content (a b : pyval) : Prop :=
  truthy a = truthy b /\ (truthy a = true -> a = b).

(** ** The summary, as section 4.4 of the specification words it *)

(** The text of a field value in the concatenation: a nested list or
    mapping is serialised as JSON, any other value is its [str]. *)
Definition field_text (v : pyval) : string :=
  match v with
  | PList _ | PDict _ => json_dumps v
  | _ => str v
  end.

(** The first element of a sequence; a value that is not a sequence
    stands for itself. *)
Definition leading_item (v : pyval) : pyval :=
  match v with
  | PList (x :: _) => x
  | _ => v
  end.

(** The summary by priority: [answer] if present and non-empty, else
    [summary], else the title ([title], else [heading]) combined with
    the leading item of the body ([sections], else [bullets], else
    [body]), else the non-empty field values joined and cut to 2000
    units; for a top-level sequence, its first five non-empty elements
    joined. *)
Definition summary_by_priority (obj : pyval) : string :=
  match obj with
  | PDict d =>
      match first_nonempty d ["answer"] with
      | Some answer => strip (str answer)
      | None =>
          match first_nonempty d ["summary"] with
          | Some summary => strip (str summary)
          | None =>
              match first_nonempty d ["title"; "heading"],
                    first_nonempty d ["sections"; "bullets"; "body"] with
              | Some title, Some content => str title ++ ": " ++ str (leading_item content)
              | _, _ =>
                  slice_to 2000 (join " " (map field_text (filter truthy (map snd d))))
              end
          end
      end
  | PList l => join " " (map str (firstn 5 (filter truthy l)))
  | _ => EmptyString
  end.

(** A text of [n] letters. *)
Fixpoint text_of_length (n : nat) : string :=
  match n with
  | O => EmptyString
  | S n' => String "a" (text_of_length n')
  end.

(** The stub process when the page cannot be fetched. *)
Definition unreachable_world : World :=
  {| ChatModel := unit; Embedder := unit; Parser := unit;
     Docs := unit; Splits := unit; Store := unit; Chain := unit;
     llm := Some tt;
     embeddings := Some tt;
     structured_parser := Some tt;
     format_instructions := "title, sections";
     web_load := fun _ => inl (Raised "Connection refused");
     split_documents := fun _ _ _ => inr tt;
     faiss_from_documents := fun _ _ => inr tt;
     retrieval_qa := fun _ _ => inr tt;
     chain_invoke := fun _ _ => inr cats_chain_output;
     llm_invoke := fun _ _ => inr (PStr "json");
     parser_parse := fun _ _ => inr (PDict [("answer", PStr "Cats are mammals.")]);
     unbound_local_message := fun name => "local variable '" ++ name ++ "' referenced before assignment" |}.

(** Unfolds the module-level code. *)
Ltac run_boot :=
  cbv beta delta [booted boot boot_attempts init_parser init_models parser_suite
                  boot_bind boot_try boot_ret boot_raise attempt] iota zeta.

(* ===================================================================== *)
(** * Evaluation on concrete inputs                                       *)
(* ===================================================================== *)

Example repr_list :
  repr (PList [PStr "Intro"; PStr "it's"; PInt (-12); PNone; PDict [("k", PBool true)]])
  = "['Intro', " ++ chr dquote ++ "it's" ++ chr dquote ++ ", -12, None, {'k': True}]".
Proof. reflexivity. Qed.

Example json_nested :
  json_dumps (PList [PInt 1; PStr "x"; PNone; PDict [("k", PBool true)]])
  = "[1, " ++ json_str "x" ++ ", null, {" ++ json_str "k" ++ ": true}]".
Proof. reflexivity. Qed.

Example strip_both : strip (String (ascii_of_nat 10) "  Paris is  ") = "Paris is".
Proof. reflexivity. Qed.

Example str_int_values : (str_int 0, str_int 42, str_int (-7)) = ("0", "42", "-7").
Proof. reflexivity. Qed.

Example cats_end_to_end :
  result_of (cats_world (PDict [("answer", PStr "Cats are mammals.")])) cats_request
  = Returns (jsonify [("answer", PStr "Cats are mammals.");
                      ("raw", cats_chain_output);
                      ("structured", PDict [("answer", PStr "Cats are mammals.")])] 200).
Proof. reflexivity. Qed.

Example cats_end_to_end_calls :
  calls_of (cats_world (PDict [("answer", PStr "Cats are mammals.")])) cats_request
  = (pipeline_calls cats_url cats_question
     ++ [EvLLM (structured_prompt (cats_world PNone) (PStr "Cats are mammals."));
         EvParse (PStr "json")])%list.
Proof. reflexivity. Qed.

Example parse_failure_is_surfaced :
  result_of (stub_world true (inr cats_chain_output) (inl (Raised "Got invalid JSON object"))) cats_request
  = Returns (error_response "Got invalid JSON object" 500).
Proof. reflexivity. Qed.

Example bare_string_chain_output :
  result_of (stub_world true (inr (PStr "Cats are mammals.")) (inr (PDict []))) cats_request
  = Returns (error_response "local variable 'answer_text' referenced before assignment" 500).
Proof. reflexivity. Qed.

(* ===================================================================== *)
(** * The [try] suite and the [finally] suite                             *)
(* ===================================================================== *)

Lemma try_suite_retrieves w l e req url question ra :
  Retrieves w l e req url question ra ->
  exists r, try_suite w l e req initial_frame = (frame_after_chain url question ra, r)
            /\ (is_dict ra = true -> r = inl tt).
Proof.
  intros H. destruct H as [d docs splits store chain ra Hj Hu Hq Hl Hs Hi Hc Hr].
  unfold get in *.
  unfold try_suite. run_monad. rewrite Hj. cbn [initial_frame trace raw_answer answer_text].
  rewrite Hu, Hq. cbn [negb orb]. rewrite Hl, Hs, Hi, Hc, Hr.
  cbn [trace raw_answer answer_text app].
  destruct ra; cbn; eexists; (split; [reflexivity | try discriminate; reflexivity]).
Qed.

Lemma try_suite_exits_early w l e req :
  ExitsEarly w l e req ->
  raw_answer (fst (try_suite w l e req initial_frame)) = None.
Proof.
  intros H. unfold try_suite. run_monad.
  destruct H as [d Hj Hm | d ex Hj Hu Hq Hl | d docs ex Hj Hu Hq Hl Hs
                 | d docs splits ex Hj Hu Hq Hl Hs Hi
                 | d docs splits store ex Hj Hu Hq Hl Hs Hi Hc
                 | d docs splits store chain ex Hj Hu Hq Hl Hs Hi Hc Hr];
    unfold get in *; rewrite Hj; cbn [initial_frame trace raw_answer answer_text].
  - destruct Hm as [Hm | Hm]; rewrite Hm; cbn [negb orb]; [reflexivity |].
    rewrite orb_true_r. reflexivity.
  - rewrite Hu, Hq. cbn [negb orb]. rewrite Hl. reflexivity.
  - rewrite Hu, Hq. cbn [negb orb]. rewrite Hl, Hs. reflexivity.
  - rewrite Hu, Hq. cbn [negb orb]. rewrite Hl, Hs, Hi. reflexivity.
  - rewrite Hu, Hq. cbn [negb orb]. rewrite Hl, Hs, Hi, Hc. reflexivity.
  - rewrite Hu, Hq. cbn [negb orb]. rewrite Hl, Hs, Hi, Hc, Hr. reflexivity.
Qed.

(** With [raw_answer] unassigned the [finally] suite raises at line 203,
    whatever the [try] suite was doing. *)
Lemma finally_unbound w l s :
  raw_answer s = None ->
  finally_suite w l s = (s, inr (ARaise (UnboundLocalError "raw_answer"))).
Proof.
  intros H. unfold finally_suite. run_monad. rewrite H. reflexivity.
Qed.

Lemma handle_query_unbound w l e req :
  llm w = Some l -> embeddings w = Some e ->
  raw_answer (fst (try_suite w l e req initial_frame)) = None ->
  handle_query w req
  = (fst (try_suite w l e req initial_frame), Raises (UnboundLocalError "raw_answer")).
Proof.
  intros Hl He Hr. unfold handle_query. rewrite Hl, He.
  unfold try_finally. destruct (try_suite w l e req initial_frame) as [s1 r1].
  cbn [fst] in *. rewrite (finally_unbound w l s1 Hr). reflexivity.
Qed.

(** Once the chain has returned, the handler ends the way its [finally]
    suite does. *)
Lemma handle_query_retrieves w l e req url question ra s' ab :
  llm w = Some l -> embeddings w = Some e ->
  Retrieves w l e req url question ra ->
  finally_suite w l (frame_after_chain url question ra) = (s', inr ab) ->
  handle_query w req = (s', finish (inr ab)).
Proof.
  intros Hl He Hr Hf. unfold handle_query. rewrite Hl, He.
  destruct (try_suite_retrieves w l e req url question ra Hr) as [r [Ht _]].
  unfold try_finally. rewrite Ht, Hf. reflexivity.
Qed.

Lemma finally_without_parser w l url question ra :
  structured_parser w = None ->
  finally_suite w l (frame_after_chain url question ra)
  = (frame_after_chain url question ra, inr (AReturn (error_response parser_message 500))).
Proof.
  intros Hp. unfold finally_suite. run_monad. unfold frame_after_chain at 1.
  cbn [raw_answer]. rewrite Hp. reflexivity.
Qed.

(** The [finally] suite of a request that reaches the parse. *)
Lemma finally_parses w l p url question rd out parsed :
  structured_parser w = Some p ->
  llm_invoke w l (structured_prompt w (get_default rd "result" (PStr EmptyString))) = inr out ->
  parser_parse w p out = inr parsed ->
  exists s',
    finally_suite w l (frame_after_chain url question (PDict rd))
    = (s', inr (AReturn
         (if is_dict parsed || is_list parsed
          then jsonify (envelope (concise_of parsed) (PDict rd) parsed) 200
          else error_response unstructured_message 500))).
Proof.
  intros Hp Hi Hparse. unfold finally_suite, structured_suite. run_monad.
  unfold frame_after_chain. cbn [raw_answer answer_text trace].
  rewrite Hp. cbn [raw_answer answer_text trace]. rewrite Hi.
  cbn [raw_answer answer_text trace]. rewrite Hparse.
  destruct (is_dict parsed || is_list parsed); cbn; eexists; reflexivity.
Qed.

Lemma result_of_parses w req ra parsed :
  Parses w req ra parsed ->
  result_of w req
  = Returns (if is_dict parsed || is_list parsed
             then jsonify (envelope (concise_of parsed) ra parsed) 200
             else error_response unstructured_message 500).
Proof.
  intros H. destruct H as [l e p url question rd out parsed Hl He Hp Hr Hi Hparse].
  destruct (finally_parses w l p url question rd out parsed Hp Hi Hparse) as [s' Hf].
  unfold result_of. rewrite (handle_query_retrieves w l e req url question _ _ _ Hl He Hr Hf).
  reflexivity.
Qed.

(** Every way the [finally] suite can end: it raises at line 203, or it
    returns an error response with status 500, or it returns the
    three-field response. *)
Lemma finally_suite_shapes w l s s' r :
  finally_suite w l s = (s', r) ->
  raw_answer s' = raw_answer s
  /\ ((raw_answer s = None /\ r = inr (ARaise (UnboundLocalError "raw_answer")))
      \/ (exists msg, r = inr (AReturn (error_response msg 500)))
      \/ (exists ra answer parsed,
            raw_answer s = Some ra /\ answer_text s = Some answer
            /\ is_dict parsed || is_list parsed = true
            /\ r = inr (AReturn (jsonify (envelope (concise_of parsed) (raw_clean_of ra) parsed) 200)))).
Proof.
  unfold finally_suite, structured_suite. run_monad.
  destruct (raw_answer s) as [ra|] eqn:Hra.
  2:{ intros H; inversion H; subst. rewrite Hra. split; [reflexivity | left; split; reflexivity]. }
  destruct (structured_parser w) as [p|].
  2:{ intros H; inversion H; subst. rewrite Hra. split; [reflexivity |].
      right; left; eexists; reflexivity. }
  destruct (answer_text s) as [answer|] eqn:Hat.
  2:{ intros H; inversion H; subst. rewrite Hra. split; [reflexivity |].
      right; left; eexists; reflexivity. }
  destruct (llm_invoke w l (structured_prompt w answer)) as [ex|out].
  { intros H; inversion H; subst. cbn [raw_answer]. rewrite Hra. split; [reflexivity |].
    right; left; eexists; reflexivity. }
  cbn [raw_answer answer_text trace].
  destruct (parser_parse w p out) as [ex|parsed].
  { intros H; inversion H; subst. cbn [raw_answer]. rewrite Hra. split; [reflexivity |].
    right; left; eexists; reflexivity. }
  destruct (is_dict parsed || is_list parsed) eqn:Hshape; cbn [negb].
  - intros H; inversion H; subst. cbn [raw_answer]. rewrite Hra. split; [reflexivity |].
    right; right. exists ra, answer, parsed. rewrite Hshape. repeat split; reflexivity.
  - intros H; inversion H; subst. cbn [raw_answer]. rewrite Hra. split; [reflexivity |].
    right; left; eexists; reflexivity.
Qed.

(** [answer_text] is assigned only after [raw_answer] was assigned a
    mapping. *)
Lemma try_suite_answer_text w l e req s1 r1 answer :
  try_suite w l e req initial_frame = (s1, r1) ->
  answer_text s1 = Some answer ->
  exists rd, raw_answer s1 = Some (PDict rd).
Proof.
  unfold try_suite. run_monad.
  destruct (request_json req) as [ex|data]; [intros H; inversion H; subst; discriminate |].
  cbn [initial_frame trace raw_answer answer_text].
  destruct data;
    try (intros H; inversion H; subst; cbn; discriminate).
  destruct (negb (truthy (get_default d "url" PNone))
            || negb (truthy (get_default d "question" PNone)));
    [intros H; inversion H; subst; discriminate |].
  destruct (web_load w _) as [ex|docs]; [intros H; inversion H; subst; discriminate |].
  cbn [trace raw_answer answer_text].
  destruct (split_documents w _ _ _) as [ex|splits]; [intros H; inversion H; subst; discriminate |].
  cbn [trace raw_answer answer_text].
  destruct (faiss_from_documents w _ _) as [ex|store]; [intros H; inversion H; subst; discriminate |].
  cbn [trace raw_answer answer_text].
  destruct (retrieval_qa w _ _) as [ex|chain]; [intros H; inversion H; subst; discriminate |].
  cbn [trace raw_answer answer_text].
  destruct (chain_invoke w _ _) as [ex|ra]; [intros H; inversion H; subst; discriminate |].
  cbn [trace raw_answer answer_text].
  destruct ra; intros H; inversion H; subst; cbn; try discriminate.
  intros _. eexists; reflexivity.
Qed.

(** ** The stub process runs the whole pipeline *)

Lemma stub_retrieves parser_present ra parse_out :
  Retrieves (stub_world parser_present (inr ra) parse_out) tt tt cats_request
            cats_url cats_question ra.
Proof.
  exact (Retrieves_intro (stub_world parser_present (inr ra) parse_out) tt tt cats_request
           [("url", cats_url); ("question", cats_question)] tt tt tt tt ra
           eq_refl eq_refl eq_refl eq_refl eq_refl eq_refl eq_refl eq_refl).
Defined.

Lemma cats_parses parsed :
  Parses (cats_world parsed) cats_request cats_chain_output parsed.
Proof.
  exact (Parses_intro (cats_world parsed) cats_request tt tt tt cats_url cats_question
           [("query", cats_question); ("result", PStr "Cats are mammals.")]
           (PStr "json") parsed eq_refl eq_refl eq_refl
           (stub_retrieves true cats_chain_output (inr parsed)) eq_refl eq_refl).
Defined.

(* ===================================================================== *)
(** * Properties of [handle_query]                                        *)
(* ===================================================================== *)

(** C9: while [llm] or [embeddings] is [None], the handler returns the
    error response "AI models are not initialized. Check server logs."
    with status 500, and it has made no call of the pipeline (no page
    load, split, index, chain or model call) when it does. *)
Theorem models_uninitialized_fail_fast (w : World) (req : Request) :
  llm w = None \/ embeddings w = None ->
  result_of w req = Returns (error_response models_message 500)
  /\ calls_of w req = [].
Proof.
  intros H. unfold result_of, calls_of, handle_query.
  destruct H as [H | H]; rewrite H.
  - split; reflexivity.
  - destruct (llm w); split; reflexivity.
Qed.

Lemma models_uninitialized_fail_fast_witness :
  result_of cold_world cats_request = Returns (error_response models_message 500)
  /\ calls_of cold_world cats_request = [].
Proof.
  apply (models_uninitialized_fail_fast cold_world cats_request).
  left. reflexivity.
Defined.

(** C2: when both models are initialised and the [try] suite is left
    before line 190 assigns [raw_answer] (by the [return] of line 154 for
    a missing [url] or [question], or by an exception of the page load,
    the split, the index construction, the chain construction or the
    chain invocation), the [finally] suite still runs, reads the
    unassigned local [raw_answer], and the handler raises
    [UnboundLocalError] (a [NameError]) instead of returning any
    response. *)
Theorem early_exit_raises_name_error
  (w : World) (l : ChatModel w) (e : Embedder w) (req : Request) :
  llm w = Some l -> embeddings w = Some e ->
  ExitsEarly w l e req ->
  result_of w req = Raises (UnboundLocalError "raw_answer")
  /\ forall resp, result_of w req <> Returns resp.
Proof.
  intros Hl He Hx.
  assert (Hr : result_of w req = Raises (UnboundLocalError "raw_answer")).
  { unfold result_of.
    rewrite (handle_query_unbound w l e req Hl He (try_suite_exits_early w l e req Hx)).
    reflexivity. }
  split; [exact Hr |]. intros resp Hresp. rewrite Hr in Hresp. discriminate.
Qed.

Lemma early_exit_raises_name_error_witness :
  result_of parserless_world question_only_request = Raises (UnboundLocalError "raw_answer")
  /\ forall resp, result_of parserless_world question_only_request <> Returns resp.
Proof.
  apply (early_exit_raises_name_error parserless_world tt tt question_only_request).
  - reflexivity.
  - reflexivity.
  - apply (Exit_missing parserless_world tt tt question_only_request
             [("question", cats_question)]).
    + reflexivity.
    + left. reflexivity.
Defined.

(** C3: on a body that has a question and no URL, with every capability
    initialised, the handler does not return the status-400 response of
    line 154: the [finally] suite replaces that pending [return] by an
    [UnboundLocalError] for [raw_answer]. *)
Theorem missing_url_raises :
  result_of (cats_world (PDict [("answer", PStr "Cats are mammals.")])) question_only_request
  = Raises (UnboundLocalError "raw_answer").
Proof. reflexivity. Qed.

(** C1, as the handler has it: while [structured_parser] is [None] and
    both models are initialised, a request whose retrieval chain runs
    to completion is answered with the error response
    "StructuredOutputParser is not available on the server. ..."
    and status 500; the page load, the split, the index construction
    and the chain invocation have all been made by then, and neither
    the reformatting call nor the parse is made. *)
Theorem parser_unavailable_after_chain
  (w : World) (l : ChatModel w) (e : Embedder w) (req : Request) (url question ra : pyval) :
  structured_parser w = None ->
  llm w = Some l -> embeddings w = Some e ->
  Retrieves w l e req url question ra ->
  result_of w req = Returns (error_response parser_message 500)
  /\ calls_of w req = pipeline_calls url question.
Proof.
  intros Hp Hl He Hr. unfold result_of, calls_of.
  rewrite (handle_query_retrieves w l e req url question ra _ _ Hl He Hr
             (finally_without_parser w l url question ra Hp)).
  split; reflexivity.
Qed.

Lemma parser_unavailable_after_chain_witness :
  result_of parserless_world cats_request = Returns (error_response parser_message 500)
  /\ calls_of parserless_world cats_request = pipeline_calls cats_url cats_question.
Proof.
  apply (parser_unavailable_after_chain parserless_world tt tt cats_request
           cats_url cats_question cats_chain_output).
  - reflexivity.
  - reflexivity.
  - reflexivity.
  - apply stub_retrieves.
Defined.

(** C1, as stated, fails: with [structured_parser] uninitialised the
    handler loads the page, splits it, builds the index and invokes the
    chain before it returns the configuration error. *)
Lemma parser_unavailable_not_fail_fast :
  structured_parser parserless_world = None
  /\ calls_of parserless_world cats_request
     = [EvLoad cats_url; EvSplit 2000 200; EvIndex; EvChain;
        EvInvoke (PDict [("query", cats_question)])]
  /\ calls_of parserless_world cats_request <> [].
Proof.
  split; [reflexivity |]. split; [reflexivity | discriminate].
Qed.

(** The two shapes of a returned response, [s] being the frame the call
    ends with. *)
Lemma returned_shapes (w : World) (req : Request) (s : frame) (resp : response) :
  handle_query w req = (s, Returns resp) ->
  (status resp = 200%Z
   /\ exists ra parsed,
        raw_answer s = Some ra
        /\ is_dict parsed || is_list parsed = true
        /\ body resp = envelope (concise_of parsed) (raw_clean_of ra) parsed)
  \/ (status resp = 500%Z /\ exists msg, body resp = [("error", PStr msg)]).
Proof.
  unfold handle_query.
  destruct (llm w) as [l|] eqn:Hl.
  2:{ intros H; inversion H; subst. right. split; [reflexivity | eexists; reflexivity]. }
  destruct (embeddings w) as [e|] eqn:He.
  2:{ intros H; inversion H; subst. right. split; [reflexivity | eexists; reflexivity]. }
  unfold try_finally.
  destruct (try_suite w l e req initial_frame) as [s1 r1] eqn:Ht.
  destruct (finally_suite w l s1) as [s2 r2] eqn:Hf.
  destruct (finally_suite_shapes w l s1 s2 r2 Hf) as [Hkeep Hcases].
  destruct Hcases as [[_ Hr] | [[msg Hr] | [ra [answer [parsed [Hra [_ [Hshape Hr]]]]]]]];
    subst r2; cbn [finish]; intros H; inversion H; subst.
  - right. split; [reflexivity | eexists; reflexivity].
  - left. split; [reflexivity |].
    exists ra, parsed. rewrite Hkeep. repeat split; assumption.
Qed.

(** Every response the handler returns is of one of two shapes.  With
    status 200 its body has exactly the three fields [answer] (the
    concise summary of the parsed result), [raw] (what lines 203-206
    make of the chain's output) and [structured] (the parsed result, a
    [dict] or a [list]).  Otherwise the status is 500 and the body has
    the single field [error]. *)
Theorem response_shapes (w : World) (req : Request) (resp : response) :
  result_of w req = Returns resp ->
  (status resp = 200%Z
   /\ exists ra parsed,
        raw_answer (fst (handle_query w req)) = Some ra
        /\ is_dict parsed || is_list parsed = true
        /\ body resp = [("answer", PStr (concise_of parsed));
                        ("raw", raw_clean_of ra);
                        ("structured", parsed)])
  \/ (status resp = 500%Z /\ exists msg, body resp = [("error", PStr msg)]).
Proof.
  unfold result_of. destruct (handle_query w req) as [s out] eqn:Hq.
  cbn [fst snd]. intros Hout. subst out.
  exact (returned_shapes w req s resp Hq).
Qed.

Lemma response_shapes_witness :
  (status (jsonify (envelope "Cats are mammals." cats_chain_output
                      (PDict [("answer", PStr "Cats are mammals.")])) 200) = 200%Z
   /\ exists ra parsed,
        raw_answer (fst (handle_query (cats_world (PDict [("answer", PStr "Cats are mammals.")]))
                           cats_request)) = Some ra
        /\ is_dict parsed || is_list parsed = true
        /\ body (jsonify (envelope "Cats are mammals." cats_chain_output
                            (PDict [("answer", PStr "Cats are mammals.")])) 200)
           = [("answer", PStr (concise_of parsed));
              ("raw", raw_clean_of ra);
              ("structured", parsed)])
  \/ (status (jsonify (envelope "Cats are mammals." cats_chain_output
                         (PDict [("answer", PStr "Cats are mammals.")])) 200) = 500%Z
      /\ exists msg,
           body (jsonify (envelope "Cats are mammals." cats_chain_output
                            (PDict [("answer", PStr "Cats are mammals.")])) 200)
           = [("error", PStr msg)]).
Proof.
  apply (response_shapes (cats_world (PDict [("answer", PStr "Cats are mammals.")]))
           cats_request).
  reflexivity.
Defined.

(** C5: a request that fails does not always get an error payload.
    When the page cannot be fetched, the handler makes the one call of
    the loader and then raises the [UnboundLocalError] for
    [raw_answer] from its [finally] suite: it returns no response, so
    there is neither the three-field body nor an [error] field.  And
    the wrapping of a bare string as a one-field mapping [result]
    (lines 203-206) never reaches a response: for a chain output that
    is a bare string line 191 has already failed, and the request is
    answered with status 500 although the parse would have
    succeeded. *)
Theorem failed_request_without_error_payload :
  result_of unreachable_world cats_request = Raises (UnboundLocalError "raw_answer")
  /\ (forall resp, result_of unreachable_world cats_request <> Returns resp)
  /\ calls_of unreachable_world cats_request = [EvLoad cats_url]
  /\ raw_clean_of (PStr "Cats are mammals.") = PDict [("result", PStr "Cats are mammals.")]
  /\ result_of (stub_world true (inr (PStr "Cats are mammals."))
                          (inr (PDict [("answer", PStr "Cats are mammals.")]))) cats_request
     = Returns (error_response "local variable 'answer_text' referenced before assignment" 500).
Proof.
  split; [reflexivity |]. split; [intros resp; discriminate |].
  split; [reflexivity |]. split; reflexivity.
Qed.

(** C6, as the handler has it: when the parse step returns [parsed],
    the result is accepted exactly when [parsed] is a [dict] or a
    [list], whatever the elements of the list are: the request is then
    answered with the three-field response.  Any other shape is
    answered with the error response "StructuredOutputParser did not
    return structured data." and status 500. *)
Theorem parsed_shape_gate (w : World) (req : Request) (ra parsed : pyval) :
  Parses w req ra parsed ->
  result_of w req
  = if is_dict parsed || is_list parsed
    then Returns (jsonify (envelope (concise_of parsed) ra parsed) 200)
    else Returns (error_response unstructured_message 500).
Proof.
  intros H. rewrite (result_of_parses w req ra parsed H).
  destruct (is_dict parsed || is_list parsed); reflexivity.
Qed.

Lemma parsed_shape_gate_witness :
  result_of (cats_world (PStr "Cats are mammals.")) cats_request
  = if is_dict (PStr "Cats are mammals.") || is_list (PStr "Cats are mammals.")
    then Returns (jsonify (envelope (concise_of (PStr "Cats are mammals."))
                             cats_chain_output (PStr "Cats are mammals.")) 200)
    else Returns (error_response unstructured_message 500).
Proof.
  apply (parsed_shape_gate (cats_world (PStr "Cats are mammals.")) cats_request
           cats_chain_output (PStr "Cats are mammals.")).
  apply cats_parses.
Defined.

(** C6, as stated, fails: a sequence of strings is neither a mapping
    nor a sequence of mappings, and the handler accepts it and answers
    with the three-field response. *)
Lemma sequence_of_strings_accepted :
  mapping_or_mappings six_letters = false
  /\ result_of (cats_world six_letters) cats_request
     = Returns (jsonify [("answer", PStr "a b c d e");
                         ("raw", cats_chain_output);
                         ("structured", six_letters)] 200).
Proof. split; reflexivity. Qed.

(** A mapping whose values are all empty has an empty summary. *)
Lemma lookup_in_values k d v : lookup k d = Some v -> In v (values d).
Proof.
  induction d as [|[k' v'] d IH]; cbn; [discriminate |].
  destruct (k =? k'); intros H.
  - inversion H; subst. left; reflexivity.
  - right. apply IH, H.
Qed.

Lemma all_empty_get d k :
  forallb (fun v => negb (truthy v)) (values d) = true ->
  truthy (get d k) = false.
Proof.
  intros H. unfold get, get_default.
  destruct (lookup k d) as [v|] eqn:Hk; [| reflexivity].
  rewrite forallb_forall in H. apply lookup_in_values in Hk.
  apply H in Hk. destruct (truthy v); [discriminate | reflexivity].
Qed.

Lemma all_empty_filter l :
  forallb (fun v => negb (truthy v)) l = true -> filter truthy l = [].
Proof.
  induction l as [|v l IH]; cbn; [reflexivity |].
  destruct (truthy v); cbn; [discriminate | exact IH].
Qed.

Lemma present_nonempty_truthy d k :
  present_nonempty d k = truthy (get d k).
Proof.
  unfold present_nonempty, get, get_default. destruct (lookup k d); reflexivity.
Qed.

Lemma concise_all_empty d :
  forallb (fun v => negb (truthy v)) (values d) = true ->
  concise_of (PDict d) = EmptyString.
Proof.
  intros H. unfold concise_of, _concise_from_structured.
  rewrite !present_nonempty_truthy.
  rewrite (all_empty_get d "answer" H), (all_empty_get d "summary" H).
  unfold por. rewrite (all_empty_get d "title" H), (all_empty_get d "heading" H).
  cbn [andb]. rewrite (all_empty_filter _ H). reflexivity.
Qed.

(** C10: when the parse succeeds and yields an empty mapping, an empty
    sequence, or a mapping all of whose values are empty (falsy), the
    handler returns the three-field response with status 200 and the
    empty string as [answer]. *)
Theorem empty_structure_succeeds (w : World) (req : Request) (ra parsed : pyval) :
  Parses w req ra parsed ->
  (parsed = PDict [] \/ parsed = PList []
   \/ exists d, parsed = PDict d /\ forallb (fun v => negb (truthy v)) (values d) = true) ->
  result_of w req
  = Returns (jsonify [("answer", PStr EmptyString); ("raw", ra); ("structured", parsed)] 200).
Proof.
  intros H Hempty. rewrite (result_of_parses w req ra parsed H).
  destruct Hempty as [-> | [-> | [d [-> Hd]]]]; cbn [is_dict is_list orb].
  - reflexivity.
  - reflexivity.
  - unfold envelope. rewrite (concise_all_empty d Hd). reflexivity.
Qed.

Lemma empty_structure_succeeds_witness :
  result_of (cats_world (PDict [("title", PStr EmptyString); ("sections", PList [])])) cats_request
  = Returns (jsonify [("answer", PStr EmptyString);
                      ("raw", cats_chain_output);
                      ("structured", PDict [("title", PStr EmptyString); ("sections", PList [])])]
               200).
Proof.
  apply (empty_structure_succeeds
           (cats_world (PDict [("title", PStr EmptyString); ("sections", PList [])]))
           cats_request cats_chain_output
           (PDict [("title", PStr EmptyString); ("sections", PList [])])).
  - apply cats_parses.
  - right. right. exists [("title", PStr EmptyString); ("sections", PList [])].
    split; reflexivity.
Defined.

(* ===================================================================== *)
(** * Properties of [_concise_from_structured]                            *)
(* ===================================================================== *)

Lemma slice_to_length n s : String.length (slice_to n s) <= n.
Proof.
  unfold slice_to. revert s.
  induction n as [|n IH]; intros s; destruct s as [|c s]; cbn; try lia.
  specialize (IH s). lia.
Qed.

(** [a or b] on two fields is the first of them that is non-empty. *)
Lemma first_nonempty_or2 d a b :
  first_nonempty d [a; b]
  = if truthy (por (get d a) (get d b)) then Some (por (get d a) (get d b)) else None.
Proof.
  unfold por. cbn [first_nonempty].
  destruct (truthy (get d a)) eqn:Ha; [rewrite Ha; reflexivity |].
  destruct (truthy (get d b)) eqn:Hb; reflexivity.
Qed.

Lemma first_nonempty_or3 d a b c :
  first_nonempty d [a; b; c]
  = if truthy (por (por (get d a) (get d b)) (get d c))
    then Some (por (por (get d a) (get d b)) (get d c)) else None.
Proof.
  unfold por. cbn [first_nonempty].
  destruct (truthy (get d a)) eqn:Ha; [rewrite !Ha; reflexivity |].
  destruct (truthy (get d b)) eqn:Hb; [rewrite !Hb; reflexivity |].
  destruct (truthy (get d c)) eqn:Hc; reflexivity.
Qed.

(** The branch of lines 246-248, for any non-empty [sections] value: a
    list contributes its first element, any other value itself. *)
Lemma concise_title_branch d title sections :
  present_nonempty d "answer" = false ->
  present_nonempty d "summary" = false ->
  first_nonempty d ["title"; "heading"] = Some title ->
  first_nonempty d ["sections"; "bullets"; "body"] = Some sections ->
  _concise_from_structured (PDict d) = Some (str title ++ ": " ++ str (first_of sections)).
Proof.
  intros Ha Hs Ht Hb. unfold _concise_from_structured. rewrite Ha, Hs.
  rewrite first_nonempty_or2 in Ht. rewrite first_nonempty_or3 in Hb.
  destruct (truthy (por (get d "title") (get d "heading"))); [| discriminate].
  destruct (truthy (por (por (get d "sections") (get d "bullets")) (get d "body")));
    [| discriminate].
  inversion Ht; inversion Hb; subst. reflexivity.
Qed.

Lemma concise_fallback_branch d :
  present_nonempty d "answer" = false ->
  present_nonempty d "summary" = false ->
  first_nonempty d ["title"; "heading"] = None
  \/ first_nonempty d ["sections"; "bullets"; "body"] = None ->
  _concise_from_structured (PDict d)
  = Some (slice_to 2000 (join " " (map render_value (filter truthy (values d))))).
Proof.
  intros Ha Hs Hn. unfold _concise_from_structured. rewrite Ha, Hs.
  rewrite first_nonempty_or2, first_nonempty_or3 in Hn.
  destruct (truthy (por (get d "title") (get d "heading")));
    destruct (truthy (por (por (get d "sections") (get d "bullets")) (get d "body")));
    cbn [andb]; try reflexivity.
  destruct Hn; discriminate.
Qed.

Lemma render_value_field_text (v : pyval) : render_value v = field_text v.
Proof. destruct v; reflexivity. Qed.

(** C4: for every parsed result the concise summary is the one the
    stated priority gives.  A mapping with a non-empty [answer] gives
    that field (as text, stripped); else one with a non-empty [summary]
    gives that field; else a non-empty [title] or [heading] together
    with a non-empty value under [sections], [bullets] or [body] gives
    the title, a colon and the first element of that value when it is a
    list (the value itself when it is not); else the non-empty field
    values (nested lists and mappings serialised as JSON) are joined by
    spaces and cut to 2000 characters.  A top-level sequence gives its
    first five non-empty elements joined by spaces.  The three examples
    of the specification evaluate as it says, and so does one input in
    each of the other branches. *)
Theorem concise_priority :
  (forall d, _concise_from_structured (PDict d) = Some (summary_by_priority (PDict d)))
  /\ (forall l, _concise_from_structured (PList l) = Some (summary_by_priority (PList l)))
  /\ _concise_from_structured (PDict [("answer", PStr "Paris is the capital.")])
     = Some "Paris is the capital."
  /\ _concise_from_structured
       (PDict [("title", PStr "Overview"); ("sections", PList [PStr "Intro"; PStr "Details"])])
     = Some "Overview: Intro"
  /\ _concise_from_structured six_letters = Some "a b c d e"
  /\ _concise_from_structured
       (PDict [("answer", PStr "  Paris  "); ("summary", PStr "The capital.")])
     = Some "Paris"
  /\ _concise_from_structured
       (PDict [("answer", PStr EmptyString); ("summary", PStr "The capital.");
               ("title", PStr "France")])
     = Some "The capital."
  /\ _concise_from_structured
       (PDict [("title", PStr EmptyString); ("heading", PStr "T");
               ("sections", PList []); ("body", PStr "plain text")])
     = Some "T: plain text"
  /\ _concise_from_structured
       (PDict [("title", PStr "Overview"); ("tags", PList [PStr "x"; PInt 1]);
               ("meta", PDict [("k", PBool true)]); ("count", PInt 3);
               ("note", PStr EmptyString); ("extra", PNone)])
     = Some ("Overview [" ++ chr dquote ++ "x" ++ chr dquote ++ ", 1] {"
             ++ chr dquote ++ "k" ++ chr dquote ++ ": true} 3")
  /\ _concise_from_structured (PDict [("notes", PStr (text_of_length 2500))])
     = Some (text_of_length 2000)
  /\ _concise_from_structured
       (PList [PNone; PStr "a"; PList []; PDict [("k", PInt 1)]; PBool true])
     = Some "a {'k': 1} True".
Proof.
  split; [| split; [| repeat split; vm_compute; reflexivity]].
  - intros d. unfold _concise_from_structured, summary_by_priority.
    rewrite !present_nonempty_truthy, first_nonempty_or2, first_nonempty_or3.
    cbn [first_nonempty].
    destruct (truthy (get d "answer")); [reflexivity |].
    destruct (truthy (get d "summary")); [reflexivity |].
    destruct (truthy (por (get d "title") (get d "heading")));
      destruct (truthy (por (por (get d "sections") (get d "bullets")) (get d "body")));
      cbn [andb]; try reflexivity;
      unfold values; rewrite (map_ext _ _ render_value_field_text); reflexivity.
  - intros l. cbn [_concise_from_structured summary_by_priority].
    rewrite firstn_map. reflexivity.
Qed.

(** ** Further facts about the responses *)

(** The status of line 154 is never the status of a returned response. *)
Lemma never_status_400 (w : World) (req : Request) (resp : response) :
  result_of w req = Returns resp -> status resp <> 400%Z.
Proof.
  unfold result_of. destruct (handle_query w req) as [s out] eqn:Hq.
  cbn [snd]. intros Hout. subst out.
  destruct (returned_shapes w req s resp Hq) as [[Hs _] | [Hs _]];
    rewrite Hs; discriminate.
Qed.

(** The handler never runs off its end. *)
Lemma never_returns_none (w : World) (req : Request) : result_of w req <> ReturnsNone.
Proof.
  unfold result_of, handle_query.
  destruct (llm w) as [l|]; [| discriminate].
  destruct (embeddings w) as [e|]; [| discriminate].
  unfold try_finally.
  destruct (try_suite w l e req initial_frame) as [s1 r1].
  destruct (finally_suite w l s1) as [s2 r2] eqn:Hf.
  destruct (finally_suite_shapes w l s1 s2 r2 Hf) as [_ Hcases].
  destruct Hcases as [[_ Hr] | [[msg Hr] | [ra [answer [parsed [_ [_ [_ Hr]]]]]]]];
    subst r2; discriminate.
Qed.

(** Lines 203-206 on a bare string. *)
Lemma raw_clean_of_text t : raw_clean_of (PStr t) = PDict [("result", PStr t)].
Proof. reflexivity. Qed.

Lemma raw_clean_of_mapping rd : raw_clean_of (PDict rd) = PDict rd.
Proof. reflexivity. Qed.

(** In a response with status 200 the [raw] field is the mapping the
    chain returned: line 191 needs [raw_answer] to be a mapping for
    [answer_text] to be assigned. *)
Lemma success_raw_is_mapping (w : World) (req : Request) (resp : response) :
  result_of w req = Returns resp -> status resp = 200%Z ->
  exists rd parsed, body resp = envelope (concise_of parsed) (PDict rd) parsed.
Proof.
  unfold result_of, handle_query.
  destruct (llm w) as [l|]; [| intros H; inversion H; subst; discriminate].
  destruct (embeddings w) as [e|]; [| intros H; inversion H; subst; discriminate].
  unfold try_finally.
  destruct (try_suite w l e req initial_frame) as [s1 r1] eqn:Ht.
  destruct (finally_suite w l s1) as [s2 r2] eqn:Hf.
  destruct (finally_suite_shapes w l s1 s2 r2 Hf) as [_ Hcases].
  destruct Hcases as [[_ Hr] | [[msg Hr] | [ra [answer [parsed [Hra [Hat [_ Hr]]]]]]]];
    subst r2; cbn [snd finish]; intros H; inversion H; subst; try discriminate.
  intros _. destruct (try_suite_answer_text w l e req s1 r1 answer Ht Hat) as [rd Hrd].
  rewrite Hrd in Hra. inversion Hra; subst. exists rd, parsed. reflexivity.
Qed.

(* ===================================================================== *)
(** * Further properties of [handle_query]                                *)
(* ===================================================================== *)

(** Every way the [try] suite can end: either the chain returned a
    mapping and both locals are assigned, or [answer_text] is
    unassigned and the calls made are the first [n] of the pipeline. *)
Lemma try_suite_cases w l e req s1 r1 :
  try_suite w l e req initial_frame = (s1, r1) ->
  (exists url question rd,
      Retrieves w l e req url question (PDict rd)
      /\ s1 = frame_after_chain url question (PDict rd)
      /\ r1 = inl tt)
  \/ (answer_text s1 = None
      /\ exists n url question,
           trace s1 = firstn n (pipeline_calls url question)
           /\ (raw_answer s1 <> None -> n = 5)).
Proof.
  unfold try_suite. run_monad.
  destruct (request_json req) as [ex|data] eqn:Hj.
  { intros H; inversion H; subst. right. split; [reflexivity |].
    exists 0, PNone, PNone. split; [reflexivity | intros C; contradiction C; reflexivity]. }
  cbn [initial_frame trace raw_answer answer_text].
  destruct data;
    try (intros H; inversion H; subst; right; split; [reflexivity |];
         exists 0, PNone, PNone; split; [reflexivity | intros C; contradiction C; reflexivity]).
  fold (get d "url"). fold (get d "question").
  destruct (truthy (get d "url")) eqn:Hu; cbn [negb orb].
  2:{ intros H; inversion H; subst; right; split; [reflexivity |].
      exists 0, PNone, PNone; split; [reflexivity | intros C; contradiction C; reflexivity]. }
  destruct (truthy (get d "question")) eqn:Hq; cbn [negb].
  2:{ intros H; inversion H; subst; right; split; [reflexivity |].
      exists 0, PNone, PNone; split; [reflexivity | intros C; contradiction C; reflexivity]. }
  destruct (web_load w (get d "url")) as [ex|docs] eqn:Hl.
  { intros H; inversion H; subst; right; split; [reflexivity |].
    exists 1, (get d "url"), (get d "question").
    split; [reflexivity | intros C; contradiction C; reflexivity]. }
  cbn [trace raw_answer answer_text].
  destruct (split_documents w 2000 200 docs) as [ex|splits] eqn:Hs.
  { intros H; inversion H; subst; right; split; [reflexivity |].
    exists 2, (get d "url"), (get d "question").
    split; [reflexivity | intros C; contradiction C; reflexivity]. }
  cbn [trace raw_answer answer_text].
  destruct (faiss_from_documents w splits e) as [ex|store] eqn:Hi.
  { intros H; inversion H; subst; right; split; [reflexivity |].
    exists 3, (get d "url"), (get d "question").
    split; [reflexivity | intros C; contradiction C; reflexivity]. }
  cbn [trace raw_answer answer_text].
  destruct (retrieval_qa w l store) as [ex|chain] eqn:Hc.
  { intros H; inversion H; subst; right; split; [reflexivity |].
    exists 4, (get d "url"), (get d "question").
    split; [reflexivity | intros C; contradiction C; reflexivity]. }
  cbn [trace raw_answer answer_text].
  destruct (chain_invoke w chain (PDict [("query", get d "question")])) as [ex|ra] eqn:Hr.
  { intros H; inversion H; subst; right; split; [reflexivity |].
    exists 5, (get d "url"), (get d "question").
    split; [reflexivity | intros C; contradiction C; reflexivity]. }
  cbn [trace raw_answer answer_text].
  pose proof (Retrieves_intro w l e req d docs splits store chain ra Hj Hu Hq Hl Hs Hi Hc Hr)
    as Hret.
  destruct ra; intros H; inversion H; subst;
    try (right; split; [reflexivity |];
         exists 5, (get d "url"), (get d "question"); split; reflexivity).
  left. exists (get d "url"), (get d "question"), d0.
  split; [exact Hret | split; reflexivity].
Qed.

(** The calls the [finally] suite adds, and what a status-200 return of
    it rests on. *)
Lemma finally_suite_calls w l s s' r :
  finally_suite w l s = (s', r) ->
  trace s' = trace s
  \/ (exists answer,
        answer_text s = Some answer
        /\ (trace s' = (trace s ++ [EvLLM (structured_prompt w answer)])%list
            \/ exists out,
                 trace s' = (trace s ++ [EvLLM (structured_prompt w answer); EvParse out])%list)).
Proof.
  unfold finally_suite, structured_suite. run_monad.
  destruct (raw_answer s) as [ra|]; [| intros H; inversion H; subst; left; reflexivity].
  destruct (structured_parser w) as [p|]; [| intros H; inversion H; subst; left; reflexivity].
  destruct (answer_text s) as [answer|] eqn:Hat;
    [| intros H; inversion H; subst; left; reflexivity].
  destruct (llm_invoke w l (structured_prompt w answer)) as [ex|out].
  { intros H; inversion H; subst. right. exists answer.
    split; [reflexivity | left; reflexivity]. }
  cbn [raw_answer answer_text trace].
  assert (Hboth : forall s0 : frame,
             trace s0 = ((trace s ++ [EvLLM (structured_prompt w answer)]) ++ [EvParse out])%list ->
             trace s0 = trace s
             \/ (exists answer0,
                   Some answer = Some answer0
                   /\ (trace s0 = (trace s ++ [EvLLM (structured_prompt w answer0)])%list
                       \/ exists out0,
                            trace s0
                            = (trace s ++ [EvLLM (structured_prompt w answer0); EvParse out0])%list))).
  { intros s0 Hs0. right. exists answer. split; [reflexivity |]. right. exists out.
    rewrite Hs0, <- app_assoc. reflexivity. }
  destruct (parser_parse w p out) as [ex|parsed].
  { intros H; inversion H; subst. apply Hboth. reflexivity. }
  destruct (negb (is_dict parsed || is_list parsed));
    intros H; inversion H; subst; apply Hboth; reflexivity.
Qed.

Lemma finally_suite_success w l s s' resp :
  finally_suite w l s = (s', inr (AReturn resp)) ->
  status resp = 200%Z ->
  exists ra answer p out parsed,
    raw_answer s = Some ra /\ answer_text s = Some answer
    /\ structured_parser w = Some p
    /\ llm_invoke w l (structured_prompt w answer) = inr out
    /\ parser_parse w p out = inr parsed
    /\ is_dict parsed || is_list parsed = true
    /\ resp = jsonify (envelope (concise_of parsed) (raw_clean_of ra) parsed) 200.
Proof.
  unfold finally_suite, structured_suite. run_monad.
  destruct (raw_answer s) as [ra|]; [| intros H; inversion H].
  destruct (structured_parser w) as [p|];
    [| intros H; inversion H; subst; cbn; discriminate].
  destruct (answer_text s) as [answer|];
    [| intros H; inversion H; subst; cbn; discriminate].
  destruct (llm_invoke w l (structured_prompt w answer)) as [ex|out] eqn:Hi;
    [intros H; inversion H; subst; cbn; discriminate |].
  cbn [raw_answer answer_text trace].
  destruct (parser_parse w p out) as [ex|parsed] eqn:Hp;
    [intros H; inversion H; subst; cbn; discriminate |].
  destruct (is_dict parsed || is_list parsed) eqn:Hshape; cbn [negb];
    intros H; inversion H; subst; cbn; try discriminate.
  intros _. exists ra, answer, p, out, parsed. repeat split; try reflexivity; assumption.
Qed.

(** X1: the only exception that leaves the handler is the
    [UnboundLocalError] for [raw_answer], and it leaves only when the
    [try] suite ended before line 190; an exception of Flask or of a
    library (page load, split, index, chain, model, parser) never
    reaches the caller as itself. *)
Theorem escaping_exception_is_unbound_raw_answer (w : World) (req : Request) (ex : exn) :
  result_of w req = Raises ex ->
  ex = UnboundLocalError "raw_answer"
  /\ raw_answer (fst (handle_query w req)) = None.
Proof.
  unfold result_of, handle_query.
  destruct (llm w) as [l|]; [| discriminate].
  destruct (embeddings w) as [e|]; [| discriminate].
  unfold try_finally.
  destruct (try_suite w l e req initial_frame) as [s1 r1].
  destruct (finally_suite w l s1) as [s2 r2] eqn:Hf.
  destruct (finally_suite_shapes w l s1 s2 r2 Hf) as [Hkeep Hcases].
  destruct Hcases as [[Hnone Hr] | [[msg Hr] | [ra [answer [parsed [_ [_ [_ Hr]]]]]]]];
    subst r2; cbn [fst snd finish]; intros H; inversion H.
  split; [reflexivity | congruence].
Qed.

Lemma escaping_exception_is_unbound_raw_answer_witness :
  result_of (stub_world true (inl (Raised "model overloaded")) (inr (PDict []))) cats_request
  = Raises (UnboundLocalError "raw_answer")
  /\ (UnboundLocalError "raw_answer" = UnboundLocalError "raw_answer"
      /\ raw_answer (fst (handle_query
                            (stub_world true (inl (Raised "model overloaded")) (inr (PDict [])))
                            cats_request)) = None).
Proof.
  split; [reflexivity |].
  apply (escaping_exception_is_unbound_raw_answer
           (stub_world true (inl (Raised "model overloaded")) (inr (PDict []))) cats_request).
  reflexivity.
Defined.

(** X2: the calls of a request are the first stages of the pipeline,
    each made once and in order (page load, split, index, chain
    construction, chain invocation, reformatting call, parse): nothing
    is retried or skipped.  The splitter is always configured with
    chunk size 2000 and overlap 200. *)
Theorem calls_follow_pipeline (w : World) (req : Request) :
  map stage (calls_of w req) = seq 0 (length (calls_of w req))
  /\ forall size overlap,
       In (EvSplit size overlap) (calls_of w req) -> size = 2000%Z /\ overlap = 200%Z.
Proof.
  assert (Hshape : forall url question (tail : list event),
             (tail = [] \/ (exists p, tail = [EvLLM p]) \/ (exists p o, tail = [EvLLM p; EvParse o])) ->
             map stage (pipeline_calls url question ++ tail)%list
             = seq 0 (length (pipeline_calls url question ++ tail)%list)
             /\ forall size overlap,
                  In (EvSplit size overlap) (pipeline_calls url question ++ tail)%list ->
                  size = 2000%Z /\ overlap = 200%Z).
  { intros url question tail [-> | [[p ->] | [p [o ->]]]]; (split; [reflexivity |]);
      cbn; intros size overlap Hin;
      repeat (destruct Hin as [Hin | Hin]; [inversion Hin; subst; try (split; reflexivity) |]);
      try contradiction. }
  assert (Hprefix : forall n url question,
             map stage (firstn n (pipeline_calls url question))
             = seq 0 (length (firstn n (pipeline_calls url question)))
             /\ forall size overlap,
                  In (EvSplit size overlap) (firstn n (pipeline_calls url question)) ->
                  size = 2000%Z /\ overlap = 200%Z).
  { intros n url question.
    do 6 (destruct n as [|n]; [split; [reflexivity |]; cbn; intros size overlap Hin;
      repeat (destruct Hin as [Hin | Hin]; [inversion Hin; subst; try (split; reflexivity) |]);
      try contradiction |]).
    split; [reflexivity |]. cbn; intros size overlap Hin.
    repeat (destruct Hin as [Hin | Hin]; [inversion Hin; subst; try (split; reflexivity) |]);
      try contradiction. }
  unfold calls_of, handle_query.
  destruct (llm w) as [l|]; [| split; [reflexivity | intros ? ? []]].
  destruct (embeddings w) as [e|]; [| split; [reflexivity | intros ? ? []]].
  unfold try_finally.
  destruct (try_suite w l e req initial_frame) as [s1 r1] eqn:Ht.
  destruct (finally_suite w l s1) as [s2 r2] eqn:Hf.
  pose proof (finally_suite_calls w l s1 s2 r2 Hf) as Hcalls.
  clear Hf. destruct r2 as [u|ab]; cbn [fst].
  all: cbv beta.
  all: destruct (try_suite_cases w l e req s1 r1 Ht)
    as [[url [question [rd [_ [Hs1 _]]]]] | [Hat [n [url [question [Htr _]]]]]];
    [ subst s1; cbn [frame_after_chain trace answer_text] in Hcalls;
      destruct Hcalls as [-> | [answer [_ [-> | [out ->]]]]];
      [ rewrite <- (app_nil_r (pipeline_calls url question)); apply Hshape; left; reflexivity
      | apply Hshape; right; left; eexists; reflexivity
      | apply Hshape; right; right; eexists; eexists; reflexivity ]
    | destruct Hcalls as [-> | [answer [Hsome _]]]; [| congruence];
      rewrite Htr; apply Hprefix ].
Qed.

(** X3: a response with status 200 is returned only when the whole
    pipeline ran: both models and the parser are initialised, the body
    has a non-empty URL and question, every call returned, the chain's
    output is a mapping and the parser returned a [dict] or a [list];
    the response then carries that parsed value and the chain's output
    unchanged. *)
Theorem success_needs_whole_pipeline (w : World) (req : Request) (resp : response) :
  result_of w req = Returns resp ->
  status resp = 200%Z ->
  exists ra parsed,
    Parses w req ra parsed
    /\ is_dict parsed || is_list parsed = true
    /\ body resp = envelope (concise_of parsed) ra parsed.
Proof.
  unfold result_of, handle_query.
  destruct (llm w) as [l|] eqn:Hl; [| intros H; inversion H; subst; cbn; discriminate].
  destruct (embeddings w) as [e|] eqn:He; [| intros H; inversion H; subst; cbn; discriminate].
  unfold try_finally.
  destruct (try_suite w l e req initial_frame) as [s1 r1] eqn:Ht.
  destruct (finally_suite w l s1) as [s2 r2] eqn:Hf.
  destruct (finally_suite_shapes w l s1 s2 r2 Hf) as [_ Hcases].
  destruct Hcases as [[_ Hr] | [[msg Hr] | [ra0 [answer0 [parsed0 [_ [_ [_ Hr]]]]]]]];
    subst r2; cbn [snd finish]; intros H; inversion H; subst; cbn [status error_response jsonify];
    try discriminate.
  intros Hstatus.
  destruct (finally_suite_success w l s1 s2 _ Hf Hstatus)
    as [ra [answer [p [out [parsed [Hra [Hat [Hp [Hi [Hparse [Hshape Hresp]]]]]]]]]]].
  destruct (try_suite_cases w l e req s1 r1 Ht)
    as [[url [question [rd [Hret [Hs1 _]]]]] | [Hnone _]]; [| congruence].
  subst s1. cbn [frame_after_chain raw_answer answer_text] in Hra, Hat.
  inversion Hra; inversion Hat; subst.
  exists (PDict rd), parsed. split; [| split; [exact Hshape |]].
  - exact (Parses_intro w req l e p url question rd out parsed Hl He Hp Hret Hi Hparse).
  - rewrite Hresp. reflexivity.
Qed.

Lemma success_needs_whole_pipeline_witness :
  exists ra parsed,
    Parses (cats_world six_letters) cats_request ra parsed
    /\ is_dict parsed || is_list parsed = true
    /\ body (jsonify (envelope "a b c d e" cats_chain_output six_letters) 200)
       = envelope (concise_of parsed) ra parsed.
Proof.
  apply (success_needs_whole_pipeline (cats_world six_letters) cats_request
           (jsonify (envelope "a b c d e" cats_chain_output six_letters) 200)).
  - reflexivity.
  - reflexivity.
Defined.

(** The [finally] suite when the reformatting call raises. *)
Lemma finally_model_error w l p url question rd ex :
  structured_parser w = Some p ->
  llm_invoke w l (structured_prompt w (get_default rd "result" (PStr EmptyString))) = inl ex ->
  finally_suite w l (frame_after_chain url question (PDict rd))
  = (mkFrame (pipeline_calls url question
              ++ [EvLLM (structured_prompt w (get_default rd "result" (PStr EmptyString)))])%list
             (Some (PDict rd)) (Some (get_default rd "result" (PStr EmptyString))),
     inr (AReturn (error_response (exn_str w ex) 500))).
Proof.
  intros Hp Hi. unfold finally_suite, structured_suite. run_monad.
  unfold frame_after_chain. cbn [raw_answer answer_text trace].
  rewrite Hp. cbn [raw_answer answer_text trace]. rewrite Hi. reflexivity.
Qed.

(** The [finally] suite when the parser raises. *)
Lemma finally_parse_error w l p url question rd out ex :
  structured_parser w = Some p ->
  llm_invoke w l (structured_prompt w (get_default rd "result" (PStr EmptyString))) = inr out ->
  parser_parse w p out = inl ex ->
  finally_suite w l (frame_after_chain url question (PDict rd))
  = (mkFrame (pipeline_calls url question
              ++ [EvLLM (structured_prompt w (get_default rd "result" (PStr EmptyString)));
                  EvParse out])%list
             (Some (PDict rd)) (Some (get_default rd "result" (PStr EmptyString))),
     inr (AReturn (error_response (exn_str w ex) 500))).
Proof.
  intros Hp Hi Hparse. unfold finally_suite, structured_suite. run_monad.
  unfold frame_after_chain. cbn [raw_answer answer_text trace].
  rewrite Hp. cbn [raw_answer answer_text trace]. rewrite Hi.
  cbn [raw_answer answer_text trace]. rewrite Hparse. reflexivity.
Qed.

(** The [finally] suite when the chain's output has no [get] method. *)
Lemma finally_without_answer_text w l p url question ra :
  structured_parser w = Some p ->
  is_dict ra = false ->
  finally_suite w l (frame_after_chain url question ra)
  = (frame_after_chain url question ra,
     inr (AReturn (error_response (unbound_local_message w "answer_text") 500))).
Proof.
  intros Hp Hra. unfold finally_suite, structured_suite. run_monad.
  unfold frame_after_chain. cbn [raw_answer answer_text trace]. rewrite Hp.
  destruct ra; try discriminate; reflexivity.
Qed.

(** X4: when the reformatting call to the model raises, the request is
    answered with status 500 and the text of that exception as the
    error; the parser is not called and nothing is retried. *)
Theorem model_error_is_surfaced
  (w : World) (l : ChatModel w) (e : Embedder w) (p : Parser w) (req : Request)
  (url question : pyval) (rd : list (string * pyval)) (ex : exn) :
  llm w = Some l -> embeddings w = Some e -> structured_parser w = Some p ->
  Retrieves w l e req url question (PDict rd) ->
  llm_invoke w l (structured_prompt w (get_default rd "result" (PStr EmptyString))) = inl ex ->
  result_of w req = Returns (error_response (exn_str w ex) 500)
  /\ calls_of w req
     = (pipeline_calls url question
        ++ [EvLLM (structured_prompt w (get_default rd "result" (PStr EmptyString)))])%list.
Proof.
  intros Hl He Hp Hr Hi. unfold result_of, calls_of.
  rewrite (handle_query_retrieves w l e req url question _ _ _ Hl He Hr
             (finally_model_error w l p url question rd ex Hp Hi)).
  split; reflexivity.
Qed.

(** X5: when the structured parser raises on the model's output, the
    request is answered with status 500 and the text of that exception
    as the error, after exactly one reformatting call and one parse. *)
Theorem parse_error_is_surfaced
  (w : World) (l : ChatModel w) (e : Embedder w) (p : Parser w) (req : Request)
  (url question out : pyval) (rd : list (string * pyval)) (ex : exn) :
  llm w = Some l -> embeddings w = Some e -> structured_parser w = Some p ->
  Retrieves w l e req url question (PDict rd) ->
  llm_invoke w l (structured_prompt w (get_default rd "result" (PStr EmptyString))) = inr out ->
  parser_parse w p out = inl ex ->
  result_of w req = Returns (error_response (exn_str w ex) 500)
  /\ calls_of w req
     = (pipeline_calls url question
        ++ [EvLLM (structured_prompt w (get_default rd "result" (PStr EmptyString)));
            EvParse out])%list.
Proof.
  intros Hl He Hp Hr Hi Hparse. unfold result_of, calls_of.
  rewrite (handle_query_retrieves w l e req url question _ _ _ Hl He Hr
             (finally_parse_error w l p url question rd out ex Hp Hi Hparse)).
  split; reflexivity.
Qed.

(** X6: when the chain returns something that is not a mapping (a bare
    string, say) and the parser is initialised, line 191 fails,
    [answer_text] stays unassigned, and the request is answered with
    status 500 and the interpreter's unbound-local message for
    [answer_text]; the reformatting call is never made. *)
Theorem non_mapping_chain_output_fails
  (w : World) (l : ChatModel w) (e : Embedder w) (p : Parser w) (req : Request)
  (url question ra : pyval) :
  llm w = Some l -> embeddings w = Some e -> structured_parser w = Some p ->
  Retrieves w l e req url question ra ->
  is_dict ra = false ->
  result_of w req = Returns (error_response (unbound_local_message w "answer_text") 500)
  /\ calls_of w req = pipeline_calls url question.
Proof.
  intros Hl He Hp Hr Hra. unfold result_of, calls_of.
  rewrite (handle_query_retrieves w l e req url question _ _ _ Hl He Hr
             (finally_without_answer_text w l p url question ra Hp Hra)).
  split; reflexivity.
Qed.

(** X7: when both models are initialised and [request.json] raises, or
    gives something that is not a mapping ([null], a list, a string, a
    number), the handler makes no call of the pipeline and raises the
    [UnboundLocalError] for [raw_answer]. *)
Theorem unreadable_body_raises
  (w : World) (l : ChatModel w) (e : Embedder w) (req : Request) :
  llm w = Some l -> embeddings w = Some e ->
  (exists ex, request_json req = inl ex)
  \/ (exists v, request_json req = inr v /\ is_dict v = false) ->
  result_of w req = Raises (UnboundLocalError "raw_answer")
  /\ calls_of w req = [].
Proof.
  intros Hl He Hbody.
  assert (Ht : exists r, try_suite w l e req initial_frame = (initial_frame, r)).
  { unfold try_suite. run_monad.
    destruct Hbody as [[ex Hj] | [v [Hj Hv]]]; rewrite Hj.
    - eexists; reflexivity.
    - destruct v; try discriminate; eexists; reflexivity. }
  destruct Ht as [r Ht].
  unfold result_of, calls_of.
  rewrite (handle_query_unbound w l e req Hl He); rewrite Ht; split; reflexivity.
Qed.

Lemma model_error_is_surfaced_witness :
  result_of quota_world cats_request = Returns (error_response "429 quota exceeded" 500)
  /\ calls_of quota_world cats_request
     = (pipeline_calls cats_url cats_question
        ++ [EvLLM (structured_prompt quota_world (PStr "Cats are mammals."))])%list.
Proof.
  apply (model_error_is_surfaced quota_world tt tt tt cats_request cats_url cats_question
           [("query", cats_question); ("result", PStr "Cats are mammals.")]
           (Raised "429 quota exceeded")).
  - reflexivity.
  - reflexivity.
  - reflexivity.
  - exact (Retrieves_intro quota_world tt tt cats_request
             [("url", cats_url); ("question", cats_question)] tt tt tt tt cats_chain_output
             eq_refl eq_refl eq_refl eq_refl eq_refl eq_refl eq_refl eq_refl).
  - reflexivity.
Defined.

Lemma parse_error_is_surfaced_witness :
  result_of (stub_world true (inr cats_chain_output) (inl (Raised "Got invalid JSON object")))
            cats_request
  = Returns (error_response "Got invalid JSON object" 500)
  /\ calls_of (stub_world true (inr cats_chain_output) (inl (Raised "Got invalid JSON object")))
              cats_request
     = (pipeline_calls cats_url cats_question
        ++ [EvLLM (structured_prompt (cats_world PNone) (PStr "Cats are mammals."));
            EvParse (PStr "json")])%list.
Proof.
  apply (parse_error_is_surfaced
           (stub_world true (inr cats_chain_output) (inl (Raised "Got invalid JSON object")))
           tt tt tt cats_request cats_url cats_question (PStr "json")
           [("query", cats_question); ("result", PStr "Cats are mammals.")]
           (Raised "Got invalid JSON object")).
  - reflexivity.
  - reflexivity.
  - reflexivity.
  - apply stub_retrieves.
  - reflexivity.
  - reflexivity.
Defined.

Lemma non_mapping_chain_output_fails_witness :
  result_of (stub_world true (inr (PStr "Cats are mammals.")) (inr (PDict []))) cats_request
  = Returns (error_response "local variable 'answer_text' referenced before assignment" 500)
  /\ calls_of (stub_world true (inr (PStr "Cats are mammals.")) (inr (PDict []))) cats_request
     = pipeline_calls cats_url cats_question.
Proof.
  apply (non_mapping_chain_output_fails
           (stub_world true (inr (PStr "Cats are mammals.")) (inr (PDict [])))
           tt tt tt cats_request cats_url cats_question (PStr "Cats are mammals.")).
  - reflexivity.
  - reflexivity.
  - reflexivity.
  - apply stub_retrieves.
  - reflexivity.
Defined.

Lemma unreadable_body_raises_witness :
  result_of (cats_world (PDict [])) list_body_request = Raises (UnboundLocalError "raw_answer")
  /\ calls_of (cats_world (PDict [])) list_body_request = [].
Proof.
  apply (unreadable_body_raises (cats_world (PDict [])) tt tt list_body_request).
  - reflexivity.
  - reflexivity.
  - right. exists (PList [cats_url; cats_question]). split; reflexivity.
Defined.

(* ===================================================================== *)
(** * Properties of the module import, [health] and the handler           *)
(* ===================================================================== *)

(** Lines 15-54 construct no model. *)
Lemma init_parser_constructs_no_model (st : Startup) (ev : boot_event) :
  In ev (fst (init_parser st)) ->
  match ev with
  | BootChatModel _ | BootEmbedder _ => False
  | _ => True
  end.
Proof.
  run_boot.
  assert (Hlist : forall evs : list boot_event,
             Forall (fun ev0 => match ev0 with
                                | BootChatModel _ | BootEmbedder _ => False
                                | _ => True
                                end) evs ->
             In ev evs ->
             match ev with
             | BootChatModel _ | BootEmbedder _ => False
             | _ => True
             end).
  { intros evs Hall Hin. rewrite Forall_forall in Hall. exact (Hall ev Hin). }
  destruct (import_modern st) as [e1|lib]; [destruct (import_classic st) as [e2|lib] |];
    cbn [fst app]; try solve [apply Hlist; repeat (apply Forall_cons; [exact I |]); apply Forall_nil];
    (destruct (has_from_response_schemas st lib); cbn [negb fst app];
     [| solve [apply Hlist; repeat (apply Forall_cons; [exact I |]); apply Forall_nil]]);
    (destruct (response_schema st lib "title" title_description); cbn [fst app];
     [solve [apply Hlist; repeat (apply Forall_cons; [exact I |]); apply Forall_nil] |]);
    (destruct (response_schema st lib "sections" sections_description); cbn [fst app];
     [solve [apply Hlist; repeat (apply Forall_cons; [exact I |]); apply Forall_nil] |]);
    (destruct (from_response_schemas st lib _); cbn [fst app];
     [solve [apply Hlist; repeat (apply Forall_cons; [exact I |]); apply Forall_nil] |]);
    (destruct (get_format_instructions st _); cbn [fst app]; solve [apply Hlist; repeat (apply Forall_cons; [exact I |]); apply Forall_nil]).
Qed.

(** X8: after the import of the module, [health] reports the model as
    initialised exactly when its constructor returned, and the
    embeddings as initialised exactly when both the model constructor
    and the embedding constructor returned: it never reports
    embeddings without a model. *)
Theorem health_after_boot (st : Startup) :
  exists llm_ok embeddings_ok,
    health (booted st)
    = jsonify [("llm_initialized", PBool llm_ok);
               ("embeddings_initialized", PBool embeddings_ok)] 200
    /\ (llm_ok = true <-> exists l, new_chat_model st chat_model_name = inr l)
    /\ (embeddings_ok = true <->
        (exists l, new_chat_model st chat_model_name = inr l)
        /\ exists e, new_embedder st embedding_model_name = inr e)
    /\ (embeddings_ok = true -> llm_ok = true).
Proof.
  unfold health. run_boot.
  destruct (new_chat_model st chat_model_name) as [ex|l].
  - exists false, false. cbn. repeat split; try discriminate.
    + intros [l Hl]; discriminate.
    + intros [[l Hl] _]; discriminate.
  - destruct (new_embedder st embedding_model_name) as [ex|e].
    + exists true, false. cbn. repeat split; try discriminate; try (eexists; reflexivity).
      intros [_ [e He]]; discriminate.
    + exists true, true. cbn. repeat split; try (eexists; reflexivity).
Qed.

(** X9: when either model constructor raises while the module is
    imported, every later query is answered with status 500 and the
    message "AI models are not initialized. Check server logs.", and no
    call of the pipeline is made; when the model constructor raises,
    the embedding model is not even loaded. *)
Theorem startup_failure_fails_every_query (st : Startup) :
  (exists ex, new_chat_model st chat_model_name = inl ex)
  \/ (exists ex, new_embedder st embedding_model_name = inl ex) ->
  (forall req,
      result_of (booted st) req = Returns (error_response models_message 500)
      /\ calls_of (booted st) req = [])
  /\ ((exists ex, new_chat_model st chat_model_name = inl ex) ->
      ~ In (BootEmbedder embedding_model_name) (boot_attempts st)).
Proof.
  intros Hfail. split.
  - intros req. unfold result_of, calls_of, handle_query.
    assert (Hnone : llm (booted st) = None \/ embeddings (booted st) = None).
    { run_boot. cbn [llm embeddings with_globals snd fst].
      destruct Hfail as [[ex Hl] | [ex He]].
      - rewrite Hl. left; reflexivity.
      - rewrite He. destruct (new_chat_model st chat_model_name); [left | right]; reflexivity. }
    destruct Hnone as [Hn | Hn]; rewrite Hn.
    + split; reflexivity.
    + destruct (llm (booted st)); split; reflexivity.
  - intros [ex Hl] Hin. unfold boot_attempts, boot in Hin. cbn [fst] in Hin.
    apply in_app_or in Hin. destruct Hin as [Hin | Hin].
    + exact (init_parser_constructs_no_model st _ Hin).
    + unfold init_models, attempt in Hin. rewrite Hl in Hin.
      destruct Hin as [H | []]. discriminate.
Qed.

Lemma startup_failure_fails_every_query_witness :
  (forall req,
      result_of (booted (stub_startup (inr true) (inr true) (inr "fmt")
                                      (inl (Raised "no API key")) (inr tt))) req
      = Returns (error_response models_message 500)
      /\ calls_of (booted (stub_startup (inr true) (inr true) (inr "fmt")
                                        (inl (Raised "no API key")) (inr tt))) req = [])
  /\ ((exists ex,
          new_chat_model (stub_startup (inr true) (inr true) (inr "fmt")
                                       (inl (Raised "no API key")) (inr tt)) chat_model_name
          = inl ex) ->
      ~ In (BootEmbedder embedding_model_name)
           (boot_attempts (stub_startup (inr true) (inr true) (inr "fmt")
                                        (inl (Raised "no API key")) (inr tt)))).
Proof.
  apply (startup_failure_fails_every_query
           (stub_startup (inr true) (inr true) (inr "fmt") (inl (Raised "no API key")) (inr tt))).
  left. exists (Raised "no API key"). reflexivity.
Defined.

(** The parser and the instructions the import computes. *)
Lemma init_parser_cases (st : Startup) :
  (exists p, BuildsParser st p
             /\ snd (init_parser st)
                = (Some p, match get_format_instructions st p with
                           | inr text => text
                           | inl _ => EmptyString
                           end))
  \/ ((forall p, ~ BuildsParser st p) /\ snd (init_parser st) = (None, EmptyString)).
Proof.
  run_boot.
  assert (Hmodern : forall lib0, import_modern st = inr lib0 ->
                    forall lib1, ChosenLib st lib1 -> lib1 = lib0).
  { intros lib0 H0 lib1 H1. destruct H1; congruence. }
  assert (Hclassic : forall ex lib0, import_modern st = inl ex -> import_classic st = inr lib0 ->
                     forall lib1, ChosenLib st lib1 -> lib1 = lib0).
  { intros ex lib0 H0 H0' lib1 H1. destruct H1; congruence. }
  destruct (import_modern st) as [e1|lib] eqn:Hm.
  - destruct (import_classic st) as [e2|lib] eqn:Hc.
    + right. split; [| reflexivity].
      intros p Hb. destruct Hb as [lib ? ? ? Hch]. destruct Hch; congruence.
    + cbn [app].
      destruct (has_from_response_schemas st lib) eqn:Hh; cbn [negb].
      2:{ right. split; [| reflexivity]. intros p Hb. destruct Hb as [lib1 ? ? ? Hch Hh1].
          rewrite (Hclassic e1 lib eq_refl eq_refl lib1 Hch) in Hh1. congruence. }
      destruct (response_schema st lib "title" title_description) as [e3|title] eqn:Ht.
      { right. split; [| reflexivity]. intros p Hb. destruct Hb as [lib1 ? ? ? Hch Hh1 Ht1].
        rewrite (Hclassic e1 lib eq_refl eq_refl lib1 Hch) in Ht1. congruence. }
      destruct (response_schema st lib "sections" sections_description) as [e4|sections] eqn:Hs.
      { right. split; [| reflexivity]. intros p Hb. destruct Hb as [lib1 ? ? ? Hch Hh1 Ht1 Hs1].
        rewrite (Hclassic e1 lib eq_refl eq_refl lib1 Hch) in Hs1. congruence. }
      destruct (from_response_schemas st lib [title; sections]) as [e5|p] eqn:Hf.
      { right. split; [| reflexivity]. intros p Hb.
        destruct Hb as [lib1 t1 s1 p1 Hch Hh1 Ht1 Hs1 Hf1].
        rewrite (Hclassic e1 lib eq_refl eq_refl lib1 Hch) in *.
        assert (t1 = title) by congruence. assert (s1 = sections) by congruence.
        subst. congruence. }
      left. exists p. split.
      * exact (BuildsParser_intro st lib title sections p
                 (Chosen_classic st e1 lib Hm Hc) Hh Ht Hs Hf).
      * destruct (get_format_instructions st p); reflexivity.
  - cbn [app].
    destruct (has_from_response_schemas st lib) eqn:Hh; cbn [negb].
    2:{ right. split; [| reflexivity]. intros p Hb. destruct Hb as [lib1 ? ? ? Hch Hh1].
        rewrite (Hmodern lib eq_refl lib1 Hch) in Hh1. congruence. }
    destruct (response_schema st lib "title" title_description) as [e3|title] eqn:Ht.
    { right. split; [| reflexivity]. intros p Hb. destruct Hb as [lib1 ? ? ? Hch Hh1 Ht1].
      rewrite (Hmodern lib eq_refl lib1 Hch) in Ht1. congruence. }
    destruct (response_schema st lib "sections" sections_description) as [e4|sections] eqn:Hs.
    { right. split; [| reflexivity]. intros p Hb. destruct Hb as [lib1 ? ? ? Hch Hh1 Ht1 Hs1].
      rewrite (Hmodern lib eq_refl lib1 Hch) in Hs1. congruence. }
    destruct (from_response_schemas st lib [title; sections]) as [e5|p] eqn:Hf.
    { right. split; [| reflexivity]. intros p Hb.
      destruct Hb as [lib1 t1 s1 p1 Hch Hh1 Ht1 Hs1 Hf1].
      rewrite (Hmodern lib eq_refl lib1 Hch) in *.
      assert (t1 = title) by congruence. assert (s1 = sections) by congruence.
      subst. congruence. }
    left. exists p. split.
    * exact (BuildsParser_intro st lib title sections p (Chosen_modern st lib Hm) Hh Ht Hs Hf).
    * destruct (get_format_instructions st p); reflexivity.
Qed.

Lemma ChosenLib_unique (st : Startup) (lib lib' : ParserLib st) :
  ChosenLib st lib -> ChosenLib st lib' -> lib = lib'.
Proof. intros H H'. destruct H; destruct H'; congruence. Qed.

Lemma BuildsParser_unique (st : Startup) (p p' : Parser (libs st)) :
  BuildsParser st p -> BuildsParser st p' -> p = p'.
Proof.
  intros H H'.
  destruct H as [lib t s p Hch _ Ht Hs Hf]. destruct H' as [lib' t' s' p' Hch' _ Ht' Hs' Hf'].
  rewrite (ChosenLib_unique st lib' lib Hch' Hch) in *.
  assert (t' = t) by congruence. assert (s' = s) by congruence. subst. congruence.
Qed.

Lemma booted_parser (st : Startup) :
  (structured_parser (booted st), format_instructions (booted st)) = snd (init_parser st).
Proof.
  unfold booted, boot. cbn [snd with_globals structured_parser format_instructions].
  destruct (snd (init_parser st)); reflexivity.
Qed.

(** X10: when the import builds the parser (the chosen library has the
    factory method, both schemas and the factory call return), the
    parser is available to the handler, with the text of
    [get_format_instructions] as instructions, or with empty
    instructions when that call raises: a failure to obtain the
    instructions does not disable the parser. *)
Theorem built_parser_is_kept (st : Startup) (p : Parser (libs st)) :
  BuildsParser st p ->
  structured_parser (booted st) = Some p
  /\ format_instructions (booted st)
     = match get_format_instructions st p with
       | inr text => text
       | inl _ => EmptyString
       end.
Proof.
  intros Hb. pose proof (booted_parser st) as Hboot.
  destruct (init_parser_cases st) as [[p0 [Hb0 Hsnd]] | [Hno _]].
  - rewrite Hsnd in Hboot. rewrite (BuildsParser_unique st p p0 Hb Hb0).
    inversion Hboot. split; reflexivity.
  - destruct (Hno p Hb).
Qed.

Lemma built_parser_is_kept_witness :
  structured_parser (booted (stub_startup (inl (Raised "No module named langchain")) (inr true)
                                          (inl (Raised "not implemented")) (inr tt) (inr tt)))
  = Some tt
  /\ format_instructions (booted (stub_startup (inl (Raised "No module named langchain"))
                                               (inr true) (inl (Raised "not implemented"))
                                               (inr tt) (inr tt)))
     = EmptyString.
Proof.
  apply (built_parser_is_kept
           (stub_startup (inl (Raised "No module named langchain")) (inr true)
                         (inl (Raised "not implemented")) (inr tt) (inr tt)) tt).
  apply (BuildsParser_intro
           (stub_startup (inl (Raised "No module named langchain")) (inr true)
                         (inl (Raised "not implemented")) (inr tt) (inr tt)) true "title" "sections" tt).
  - apply (Chosen_classic
             (stub_startup (inl (Raised "No module named langchain")) (inr true)
                         (inl (Raised "not implemented")) (inr tt) (inr tt)) (Raised "No module named langchain") true); reflexivity.
  - reflexivity.
  - reflexivity.
  - reflexivity.
  - reflexivity.
Defined.

(** X11: after the import, a missing parser always comes with empty
    format instructions, and the parser is missing exactly when the
    import could not build one. *)
Theorem missing_parser_has_no_instructions (st : Startup) :
  structured_parser (booted st) = None ->
  format_instructions (booted st) = EmptyString
  /\ forall p, ~ BuildsParser st p.
Proof.
  intros Hnone. pose proof (booted_parser st) as Hboot.
  destruct (init_parser_cases st) as [[p0 [Hb0 Hsnd]] | [Hno Hsnd]];
    rewrite Hsnd in Hboot; inversion Hboot as [[Hp Hfi]].
  - congruence.
  - split; [reflexivity | exact Hno].
Qed.

Lemma missing_parser_has_no_instructions_witness :
  format_instructions (booted (stub_startup (inl (Raised "No module named langchain"))
                                            (inl (Raised "No module named langchain_classic"))
                                            (inr "fmt") (inr tt) (inr tt)))
  = EmptyString
  /\ forall p, ~ BuildsParser (stub_startup (inl (Raised "No module named langchain"))
                                            (inl (Raised "No module named langchain_classic"))
                                            (inr "fmt") (inr tt) (inr tt)) p.
Proof.
  apply (missing_parser_has_no_instructions
           (stub_startup (inl (Raised "No module named langchain"))
                         (inl (Raised "No module named langchain_classic"))
                         (inr "fmt") (inr tt) (inr tt))).
  reflexivity.
Defined.

(** X12: when the modern import returns a library that lacks
    [from_response_schemas], the parser is left uninitialised and the
    classic library is not tried, whatever it would have offered. *)
Theorem modern_without_factory_disables_parser (st : Startup) (lib : ParserLib st) :
  import_modern st = inr lib ->
  has_from_response_schemas st lib = false ->
  structured_parser (booted st) = None
  /\ ~ In BootImportClassic (boot_attempts st).
Proof.
  intros Hm Hh. split.
  - pose proof (booted_parser st) as Hboot.
    destruct (init_parser_cases st) as [[p0 [Hb0 _]] | [_ Hsnd]].
    + destruct Hb0 as [lib0 t s p0 Hch Hh0 _ _ _].
      rewrite (ChosenLib_unique st lib0 lib Hch (Chosen_modern st lib Hm)) in Hh0. congruence.
    + rewrite Hsnd in Hboot. exact (f_equal fst Hboot).
  - unfold boot_attempts, boot. cbn [fst]. intros Hin.
    apply in_app_or in Hin. destruct Hin as [Hin | Hin].
    + revert Hin. run_boot. rewrite Hm. cbn [app]. rewrite Hh. cbn.
      intros [H | []]. discriminate.
    + revert Hin. run_boot.
      destruct (new_chat_model st chat_model_name);
        [| destruct (new_embedder st embedding_model_name)]; cbn;
        intuition discriminate.
Qed.

Lemma modern_without_factory_disables_parser_witness :
  structured_parser (booted (stub_startup (inr false) (inr true) (inr "fmt") (inr tt) (inr tt)))
  = None
  /\ ~ In BootImportClassic
          (boot_attempts (stub_startup (inr false) (inr true) (inr "fmt") (inr tt) (inr tt))).
Proof.
  apply (modern_without_factory_disables_parser
           (stub_startup (inr false) (inr true) (inr "fmt") (inr tt) (inr tt)) false).
  - reflexivity.
  - reflexivity.
Defined.

(* ===================================================================== *)
(** * Further properties of [_concise_from_structured]                    *)
(* ===================================================================== *)

Lemma filter_truthy_twice (l : list pyval) : filter truthy (filter truthy l) = filter truthy l.
Proof.
  induction l as [|v l IH]; cbn; [reflexivity |].
  destruct (truthy v) eqn:Hv; cbn; [rewrite Hv, IH |]; auto.
Qed.

(** X13: the empty elements of a top-level sequence ([None], [False],
    zero, empty strings, lists and mappings) do not influence the
    summary: it is the summary of the sequence without them. *)
Theorem empty_elements_are_ignored (l : list pyval) :
  concise_of (PList l) = concise_of (PList (filter truthy l)).
Proof.
  unfold concise_of, _concise_from_structured. rewrite filter_truthy_twice. reflexivity.
Qed.

(** X14: once a sequence has five non-empty elements, whatever follows
    them does not influence the summary. *)
Theorem elements_after_fifth_are_ignored (l rest : list pyval) :
  5 <= length (filter truthy l) ->
  concise_of (PList (l ++ rest)%list) = concise_of (PList l).
Proof.
  intros Hlen. unfold concise_of, _concise_from_structured.
  rewrite filter_app, map_app, firstn_app, length_map.
  replace (5 - length (filter truthy l)) with 0 by lia.
  cbn [firstn]. rewrite app_nil_r. reflexivity.
Qed.

Lemma elements_after_fifth_are_ignored_witness :
  concise_of (PList ([PStr "a"; PNone; PStr "b"; PStr "c"; PInt 0; PStr "d"; PStr "e"]
                     ++ [PStr "f"; PStr "g"])%list)
  = concise_of (PList [PStr "a"; PNone; PStr "b"; PStr "c"; PInt 0; PStr "d"; PStr "e"]).
Proof.
  apply (elements_after_fifth_are_ignored
           [PStr "a"; PNone; PStr "b"; PStr "c"; PInt 0; PStr "d"; PStr "e"]
           [PStr "f"; PStr "g"]).
  cbn. lia.
Defined.

Lemma lstrip_all_space (s : string) : all_space s = true -> lstrip s = EmptyString.
Proof.
  induction s as [|c s IH]; cbn; [reflexivity |].
  destruct (isspace c); cbn; [exact IH | discriminate].
Qed.

(** X15: a non-empty [answer] field that holds only white space is
    still the field chosen: the summary is then the empty string, even
    when [summary], [title] or [sections] hold text.  The same holds
    for a blank [summary] when [answer] is missing or empty. *)
Theorem blank_field_gives_empty_summary (d : list (string * pyval)) (s : string) :
  s <> EmptyString -> all_space s = true ->
  lookup "answer" d = Some (PStr s)
  \/ (present_nonempty d "answer" = false /\ lookup "summary" d = Some (PStr s)) ->
  concise_of (PDict d) = EmptyString.
Proof.
  intros Hne Hsp Hfield.
  assert (Htruthy : truthy (PStr s) = true) by (destruct s; [contradiction Hne |]; reflexivity).
  unfold concise_of, _concise_from_structured.
  destruct Hfield as [Ha | [Hna Hs]].
  - unfold present_nonempty at 1. rewrite Ha, Htruthy.
    unfold get, get_default. rewrite Ha. cbn [str]. unfold strip.
    rewrite (lstrip_all_space s Hsp). reflexivity.
  - rewrite Hna. unfold present_nonempty. rewrite Hs, Htruthy.
    unfold get, get_default. rewrite Hs. cbn [str]. unfold strip.
    rewrite (lstrip_all_space s Hsp). reflexivity.
Qed.

Lemma blank_field_gives_empty_summary_witness :
  concise_of (PDict [("answer", PStr "  "); ("summary", PStr "Cats are mammals.");
                     ("title", PStr "Cats"); ("sections", PList [PStr "Mammals"])])
  = EmptyString.
Proof.
  apply (blank_field_gives_empty_summary
           [("answer", PStr "  "); ("summary", PStr "Cats are mammals.");
            ("title", PStr "Cats"); ("sections", PList [PStr "Mammals"])] "  ").
  - discriminate.
  - reflexivity.
  - left. reflexivity.
Defined.

Lemma rstrip_twice (s : string) : rstrip (rstrip s) = rstrip s.
Proof.
  induction s as [|c s IH]; [reflexivity |].
  cbn [rstrip]. destruct (rstrip s) as [|c' r] eqn:Hr.
  - destruct (isspace c) eqn:Hc; [reflexivity |]. cbn. rewrite Hc. reflexivity.
  - cbn [rstrip] in *. rewrite IH. reflexivity.
Qed.

Lemma rstrip_keeps_head (c : ascii) (s : string) :
  isspace c = false -> rstrip (String c s) = String c (rstrip s).
Proof.
  intros Hc. cbn [rstrip]. destruct (rstrip s); [rewrite Hc |]; reflexivity.
Qed.

Lemma lstrip_head (s : string) :
  lstrip s = EmptyString \/ exists c t, lstrip s = String c t /\ isspace c = false.
Proof.
  induction s as [|c s IH]; cbn; [left; reflexivity |].
  destruct (isspace c) eqn:Hc; [exact IH |]. right. exists c, s. split; [reflexivity | exact Hc].
Qed.

Lemma strip_twice (s : string) : strip (strip s) = strip s.
Proof.
  unfold strip. destruct (lstrip_head s) as [-> | [c [t [-> Hc]]]]; [reflexivity |].
  rewrite (rstrip_keeps_head c t Hc). cbn [lstrip]. rewrite Hc.
  rewrite (rstrip_keeps_head c (rstrip t) Hc), rstrip_twice. reflexivity.
Qed.

(** X16: a summary taken from [answer] or [summary] has no leading or
    trailing white space: stripping it again changes nothing. *)
Theorem field_summary_is_stripped (d : list (string * pyval)) (s : string) :
  present_nonempty d "answer" = true \/ present_nonempty d "summary" = true ->
  _concise_from_structured (PDict d) = Some s ->
  strip s = s.
Proof.
  intros Hfield. unfold _concise_from_structured.
  destruct (present_nonempty d "answer").
  - intros H; inversion H. apply strip_twice.
  - destruct Hfield as [Hf | Hf]; [discriminate |]. rewrite Hf.
    intros H; inversion H. apply strip_twice.
Qed.

Lemma field_summary_is_stripped_witness :
  strip "Cats are mammals." = "Cats are mammals.".
Proof.
  apply (field_summary_is_stripped
           [("answer", PStr EmptyString);
            ("summary", PStr (String (ascii_of_nat 10) " Cats are mammals.  "))]
           "Cats are mammals.").
  - right. reflexivity.
  - reflexivity.
Defined.

Lemma slice_to_prefix (n : nat) (s : string) :
  exists rest, s = slice_to n s ++ rest
               /\ String.length (slice_to n s) = Nat.min n (String.length s).
Proof.
  unfold slice_to. revert s.
  induction n as [|n IH]; intros s.
  - exists s. destruct s; split; reflexivity.
  - destruct s as [|c s].
    + exists EmptyString. split; reflexivity.
    + destruct (IH s) as [rest [Hrest Hlen]]. exists rest. cbn [substring append String.length].
      split; [rewrite <- Hrest; reflexivity | rewrite Hlen; reflexivity].
Qed.

(** X17: in the fallback branch the summary is the start of the
    space-joined non-empty values, and it is cut only when that text is
    longer than 2000 characters: its length is the smaller of 2000 and
    the length of the joined text. *)
Theorem fallback_summary_is_a_prefix (d : list (string * pyval)) :
  present_nonempty d "answer" = false ->
  present_nonempty d "summary" = false ->
  first_nonempty d ["title"; "heading"] = None
  \/ first_nonempty d ["sections"; "bullets"; "body"] = None ->
  exists rest,
    joined_values d = concise_of (PDict d) ++ rest
    /\ String.length (concise_of (PDict d)) = Nat.min 2000 (String.length (joined_values d)).
Proof.
  intros Ha Hs Hn. unfold concise_of. rewrite (concise_fallback_branch d Ha Hs Hn).
  exact (slice_to_prefix 2000 (joined_values d)).
Qed.

Lemma fallback_summary_is_a_prefix_witness :
  exists rest,
    joined_values [("title", PStr "Overview"); ("tags", PList [PStr "x"; PInt 1])]
    = concise_of (PDict [("title", PStr "Overview"); ("tags", PList [PStr "x"; PInt 1])]) ++ rest
    /\ String.length
         (concise_of (PDict [("title", PStr "Overview"); ("tags", PList [PStr "x"; PInt 1])]))
       = Nat.min 2000
           (String.length
              (joined_values [("title", PStr "Overview"); ("tags", PList [PStr "x"; PInt 1])])).
Proof.
  apply (fallback_summary_is_a_prefix
           [("title", PStr "Overview"); ("tags", PList [PStr "x"; PInt 1])]).
  - reflexivity.
  - reflexivity.
  - right. reflexivity.
Defined.

Lemma lookup_absent (k : string) (d : list (string * pyval)) :
  ~ In k (map fst d) -> lookup k d = None.
Proof.
  induction d as [|[k' v] d IH]; cbn; [reflexivity |].
  intros Hnot. destruct (String.eqb_spec k k') as [-> | Hne].
  - contradiction Hnot. left; reflexivity.
  - apply IH. intros Hin. apply Hnot. right; exact Hin.
Qed.

Lemma lookup_drop_empty (k : string) (d : list (string * pyval)) :
  NoDup (map fst d) ->
  lookup k (drop_empty d)
  = match lookup k d with
    | Some v => if truthy v then Some v else None
    | None => None
    end.
Proof.
  induction d as [|[k' v] d IH]; cbn [map fst]; intros Hnd; [reflexivity |].
  inversion Hnd as [|? ? Hnot Hnd']; subst.
  unfold drop_empty in *. cbn [filter snd lookup].
  destruct (truthy v) eqn:Hv; cbn [lookup].
  - destruct (k =? k'); [rewrite Hv; reflexivity | apply IH, Hnd'].
  - destruct (String.eqb_spec k k') as [-> | Hne].
    + cbv beta iota. rewrite Hv, (IH Hnd'), (lookup_absent k' d Hnot). reflexivity.
    + apply IH, Hnd'.
Qed.

Lemma get_drop_empty (k : string) (d : list (string * pyval)) :
  NoDup (map fst d) -> same_content (get d k) (get (drop_empty d) k).
Proof.
  intros Hnd. unfold same_content, get, get_default. rewrite (lookup_drop_empty k d Hnd).
  destruct (lookup k d) as [v|]; [| split; reflexivity].
  destruct (truthy v) eqn:Hv; cbn; try rewrite Hv; split; auto; discriminate.
Qed.

Lemma por_same_content (a a' b b' : pyval) :
  same_content a a' -> same_content b b' -> same_content (por a b) (por a' b').
Proof.
  unfold same_content, por. intros [Ha Ha'] [Hb Hb']. rewrite <- Ha.
  destruct (truthy a) eqn:Hta.
  - rewrite <- (Ha' eq_refl), Hta. split; reflexivity.
  - split; assumption.
Qed.

Lemma values_drop_empty (d : list (string * pyval)) :
  values (drop_empty d) = filter truthy (values d).
Proof.
  unfold values, drop_empty. induction d as [|[k v] d IH]; cbn; [reflexivity |].
  destruct (truthy v); cbn; rewrite IH; reflexivity.
Qed.

(** X18: in a mapping (whose keys are distinct, as those of a [dict]
    are) the entries of empty value do not influence the summary: a
    field present with an empty value counts as a missing field. *)
Theorem empty_fields_are_ignored (d : list (string * pyval)) :
  NoDup (map fst d) ->
  concise_of (PDict d) = concise_of (PDict (drop_empty d)).
Proof.
  intros Hnd. unfold concise_of, _concise_from_structured.
  rewrite !present_nonempty_truthy.
  pose proof (get_drop_empty "answer" d Hnd) as [Ha Ha'].
  pose proof (get_drop_empty "summary" d Hnd) as [Hs Hs'].
  rewrite <- Ha. destruct (truthy (get d "answer")); [rewrite (Ha' eq_refl); reflexivity |].
  rewrite <- Hs. destruct (truthy (get d "summary")); [rewrite (Hs' eq_refl); reflexivity |].
  pose proof (por_same_content _ _ _ _ (get_drop_empty "title" d Hnd)
                (get_drop_empty "heading" d Hnd)) as [Ht Ht'].
  pose proof (por_same_content _ _ _ _
                (por_same_content _ _ _ _ (get_drop_empty "sections" d Hnd)
                   (get_drop_empty "bullets" d Hnd))
                (get_drop_empty "body" d Hnd)) as [Hb Hb'].
  rewrite <- Ht, <- Hb.
  destruct (truthy (por (get d "title") (get d "heading"))).
  - destruct (truthy (por (por (get d "sections") (get d "bullets")) (get d "body"))).
    + cbn [andb]. rewrite <- (Ht' eq_refl), <- (Hb' eq_refl). reflexivity.
    + cbn [andb]. rewrite values_drop_empty, filter_truthy_twice. reflexivity.
  - cbn [andb]. rewrite values_drop_empty, filter_truthy_twice. reflexivity.
Qed.

Lemma empty_fields_are_ignored_witness :
  concise_of (PDict [("answer", PStr EmptyString); ("title", PStr "Cats");
                     ("sections", PList []); ("body", PStr "Cats are mammals.")])
  = concise_of (PDict (drop_empty [("answer", PStr EmptyString); ("title", PStr "Cats");
                                   ("sections", PList []); ("body", PStr "Cats are mammals.")])).
Proof.
  apply (empty_fields_are_ignored
           [("answer", PStr EmptyString); ("title", PStr "Cats");
            ("sections", PList []); ("body", PStr "Cats are mammals.")]).
  repeat constructor; cbn; intuition discriminate.
Defined.
